(** * Retrieval-and-filtering pipeline of the competitive-intelligence reporter

    A shallow embedding of [retriever.py], [agent.py] and [utils.py]:
    documents with a metadata dictionary, the chunk-and-store step, the
    source-aware date filter and the orchestrator that retrieves, filters,
    recombines and truncates the context handed to the summarizer.

    Python exceptions are modelled by the [result] type, the mutable vector
    store and the [logging] calls by an explicit [world] threaded through a
    small state-and-error monad.  The library functions the code calls
    ([datetime], the Chroma store) are the methods of two type classes, so
    that every property holds for any behaviour of the libraries; the text
    splitter is modelled after the library class the code instantiates,
    langchain's [RecursiveCharacterTextSplitter] with its default arguments. *)

From Stdlib Require Import String Ascii ZArith Lia.
From stdpp Require Import base option list gmap strings pretty.

Local Open Scope string_scope.
Local Open Scope nat_scope.
Local Open Scope list_scope.

(** ** Python exceptions *)

Record exn := Raise { exn_class : string; exn_msg : string }.

Definition ValueError (msg : string) : exn := Raise "ValueError" msg.

Inductive result (A : Type) : Type :=
| Ok (a : A)
| Raised (e : exn).
Arguments Ok {A} a.
Arguments Raised {A} e.

(** ** Documents (langchain.schema.Document) *)

Record Document := mkDocument {
  page_content : string;
  metadata : gmap string string
}.

#[global] Instance Document_eq_dec : EqDecision Document.
Proof. solve_decision. Defined.

(** [doc.metadata.get('source')] *)
Definition source (doc : Document) : option string := metadata doc !! "source".

(** ** The [logging] module and calls to external services, as a trace *)

Inductive level := INFO | WARNING | ERROR.

Inductive event :=
| Log (lvl : level) (msg : string)
| AddDocuments (chunks : list Document)
| Invoke (k : nat) (query : string).

(** ** Naive datetimes *)

Record date := mkDate { year : nat; month : nat; day : nat }.

Record datetime := mkDatetime {
  dt_date : date;
  hour : nat; minute : nat; second : nat; microsecond : nat
}.

(** What [datetime.strptime(s, '%Y-%m-%d')] builds from a date: midnight. *)
Definition at_midnight (d : date) : datetime := mkDatetime d 0 0 0 0.

Definition lex (c1 c2 : comparison) : comparison :=
  match c1 with Eq => c2 | _ => c1 end.

Definition date_compare (a b : date) : comparison :=
  lex (Nat.compare (year a) (year b))
      (lex (Nat.compare (month a) (month b)) (Nat.compare (day a) (day b))).

Definition time_compare (a b : datetime) : comparison :=
  lex (Nat.compare (hour a) (hour b))
      (lex (Nat.compare (minute a) (minute b))
           (lex (Nat.compare (second a) (second b))
                (Nat.compare (microsecond a) (microsecond b)))).

Definition datetime_compare (a b : datetime) : comparison :=
  lex (date_compare (dt_date a) (dt_date b)) (time_compare a b).

Definition is_ge (c : comparison) : bool :=
  match c with Lt => false | _ => true end.

(** [a >= b] on [datetime.date] and on naive [datetime.datetime]. *)
Definition date_ge (a b : date) : bool := is_ge (date_compare a b).
Definition datetime_ge (a b : datetime) : bool := is_ge (datetime_compare a b).

(** ** String helpers: ['T' in s], [s.replace('Z', '+00:00')], truthiness *)

Fixpoint contains_char (c : ascii) (s : string) : bool :=
  match s with
  | EmptyString => false
  | String x s' => if Ascii.eqb x c then true else contains_char c s'
  end.

Fixpoint replace_char (c : ascii) (new : string) (s : string) : string :=
  match s with
  | EmptyString => EmptyString
  | String x s' =>
      if Ascii.eqb x c then new +:+ replace_char c new s'
      else String x (replace_char c new s')
  end.

(** [if s:] for a [str]: the empty string is falsy. *)
Definition truthy (s : string) : bool := negb (String.eqb s "").

(** [str(n)] inside an f-string. *)
Definition str_nat (n : nat) : string := pretty n.

(** ** Python [str] operations used by the text splitter

    A [string] stands for a Python [str] whose code points are below 256. *)

(** [c.isspace()] for a code point below 256. *)
Definition isspace (c : ascii) : bool :=
  let n := nat_of_ascii c in
  ((9 <=? n) && (n <=? 13)) || ((28 <=? n) && (n <=? 32))
  || (n =? 133) || (n =? 160).

Fixpoint lstrip (s : string) : string :=
  match s with
  | String c s' => if isspace c then lstrip s' else s
  | EmptyString => EmptyString
  end.

Fixpoint rstrip (s : string) : string :=
  match s with
  | String c s' =>
      match rstrip s' with
      | EmptyString => if isspace c then EmptyString else String c EmptyString
      | r => String c r
      end
  | EmptyString => EmptyString
  end.

(** [s.strip()] *)
Definition strip (s : string) : string := lstrip (rstrip s).

(** [sep in s], which is what [re.search(re.escape(sep), s)] decides. *)
Fixpoint is_infix (sep s : string) : bool :=
  String.prefix sep s ||
  match s with
  | String _ s' => is_infix sep s'
  | EmptyString => false
  end.

(** [s.split(sep)] for a non-empty [sep]: the pieces between the leftmost
    non-overlapping occurrences of [sep].  [skip] characters of a separator
    just matched are still to be passed over; [cur] is the piece read so
    far. *)
Fixpoint split_go (sep : string) (skip : nat) (cur : string) (s : string)
  : list string :=
  match s with
  | EmptyString => [cur]
  | String c s' =>
      match skip with
      | S k => split_go sep k cur s'
      | O =>
          if String.prefix sep s
          then cur :: split_go sep (String.length sep - 1) EmptyString s'
          else split_go sep 0 (cur +:+ String c EmptyString) s'
      end
  end.

Definition str_split (sep s : string) : list string := split_go sep 0 EmptyString s.

(** [re.split('(' + re.escape(sep) + ')', s)]: the pieces with the captured
    separator between them, [[p0, sep, p1, sep, ..., pk]]. *)
Definition re_split_captured (sep s : string) : list string :=
  match str_split sep s with
  | [] => []
  | p0 :: ps => p0 :: flat_map (fun p => [sep; p]) ps
  end.

(** [list(s)] *)
Fixpoint list_chars (s : string) : list string :=
  match s with
  | EmptyString => []
  | String c s' => String c EmptyString :: list_chars s'
  end.

Definition nl : string := String (ascii_of_nat 10) EmptyString.

(** ** langchain.text_splitter

    The splitter is library code that [process_and_store_documents]
    instantiates and calls.  [TextSplitter] is the abstract base class: a
    subclass provides [split_text]; [create_documents] and [split_documents]
    are inherited. *)

Class TextSplitter := { split_text : string -> list string }.

(** [create_documents(texts, metadatas)]: every chunk of [texts[i]] becomes a
    Document carrying a deep copy of [metadatas[i]] ([add_start_index] is
    off by default). *)
Definition create_documents `{TextSplitter}
    (texts : list string) (metadatas : list (gmap string string)) : list Document :=
  let _metadatas :=
    match metadatas with
    | [] => replicate (length texts) (∅ : gmap string string)
    | _ => metadatas
    end in
  mjoin (imap (fun i text =>
                 (fun chunk => mkDocument chunk (default ∅ (_metadatas !! i)))
                   <$> split_text text) texts).

Definition split_documents `{TextSplitter} (documents : list Document) : list Document :=
  create_documents (page_content <$> documents) (metadata <$> documents).

Section RecursiveCharacterTextSplitter.

(** The constructor arguments; [length_function] is [len],
    [keep_separator] and [strip_whitespace] have their default [True], and
    the separators are the default ["\n\n", "\n", " ", ""]. *)
Variables (chunk_size chunk_overlap : nat).

Definition default_separators : list string := [nl +:+ nl; nl; " "; ""].

(** [_join_docs(docs, separator)] *)
Definition _join_docs (docs : list string) (separator : string) : option string :=
  let text := strip (String.concat separator docs) in
  if String.eqb text "" then None else Some text.

(** The [while] loop of [_merge_splits] that drops pieces from the front of
    [current_doc].  [total] is the length of [current_doc] joined, so the
    condition is false on an empty [current_doc] and [current_doc[0]] is
    always defined. *)
Fixpoint pop_front (separator_len _len total : nat) (current_doc : list string)
  : nat * list string :=
  match current_doc with
  | [] => (total, [])
  | d0 :: rest =>
      if (chunk_overlap <? total)
         || ((chunk_size <? total + _len + separator_len) && (0 <? total))
      then pop_front separator_len _len
             (total - (String.length d0
                       + (if 1 <? length current_doc then separator_len else 0)))
             rest
      else (total, current_doc)
  end.

(** One iteration of [for d in splits] in [_merge_splits]; the state is
    [(docs, current_doc, total)].  The warning the library logs for a chunk
    longer than [chunk_size] changes nothing and is left out. *)
Definition merge_step (separator : string)
    (st : list string * list string * nat) (d : string)
  : list string * list string * nat :=
  let '(docs, current_doc, total) := st in
  let separator_len := String.length separator in
  let _len := String.length d in
  let '(docs, current_doc, total) :=
    if chunk_size <? total + _len
                     + (if 0 <? length current_doc then separator_len else 0)
    then
      if 0 <? length current_doc then
        let docs := (docs ++ option_list (_join_docs current_doc separator))%list in
        let '(total, current_doc) := pop_front separator_len _len total current_doc in
        (docs, current_doc, total)
      else (docs, current_doc, total)
    else (docs, current_doc, total) in
  let current_doc := (current_doc ++ [d])%list in
  (docs, current_doc,
   total + _len + (if 1 <? length current_doc then separator_len else 0)).

Definition _merge_splits (splits : list string) (separator : string) : list string :=
  let '(docs, current_doc, _) := foldl (merge_step separator) ([], [], 0) splits in
  (docs ++ option_list (_join_docs current_doc separator))%list.

(** [[_splits[i] + _splits[i + 1] for i in range(1, len(_splits), 2)]],
    read on [_splits[1:]]. *)
Fixpoint join_pairs (l : list string) : list string :=
  match l with
  | sep :: p :: l' => (sep +:+ p) :: join_pairs l'
  | _ => []
  end.

(** [_split_text_with_regex(text, separator, keep_separator=True)] *)
Definition _split_text_with_regex (text separator : string) : list string :=
  let splits :=
    if truthy separator then
      match re_split_captured separator text with
      | [] => []
      | p0 :: _splits => p0 :: join_pairs _splits
      end
    else list_chars text in
  List.filter (fun s => negb (String.eqb s "")) splits.

(** The loop over [splits] in [_split_text]; the state is
    [(final_chunks, _good_splits)].  [recurse] is [None] when
    [new_separators] is empty, and the recursive call on [new_separators]
    otherwise. *)
Definition split_step (recurse : option (string -> list string))
    (st : list string * list string) (s : string) : list string * list string :=
  let '(final_chunks, _good_splits) := st in
  if String.length s <? chunk_size then (final_chunks, (_good_splits ++ [s])%list)
  else
    let final_chunks :=
      match _good_splits with
      | [] => final_chunks
      | _ => (final_chunks ++ _merge_splits _good_splits "")%list
      end in
    match recurse with
    | None => ((final_chunks ++ [s])%list, [])
    | Some f => ((final_chunks ++ f s)%list, [])
    end.

Definition split_with (recurse : option (string -> list string))
    (separator text : string) : list string :=
  let splits := _split_text_with_regex text separator in
  let '(final_chunks, _good_splits) := foldl (split_step recurse) ([], []) splits in
  match _good_splits with
  | [] => final_chunks
  | _ => (final_chunks ++ _merge_splits _good_splits "")%list
  end.

(** [_split_text(text, separators)].  The [for] loop that picks the
    separator is the recursion on [separators]: [last] is [separators[-1]]
    of the list the call started with, used when the loop ends without a
    [break]; at a [break] on a separator found in [text], [new_separators]
    is the rest of the list. *)
Fixpoint _split_text (last : string) (separators : list string) (text : string)
  : list string :=
  match separators with
  | [] => split_with None last text
  | _s :: rest =>
      if String.eqb _s "" then split_with None _s text
      else if is_infix _s text then
        split_with (match rest with
                    | [] => None
                    | _ => Some (_split_text last rest)
                    end) _s text
      else _split_text last rest text
  end.

#[local] Instance RecursiveCharacterTextSplitter : TextSplitter :=
  {| split_text text :=
       _split_text (List.last default_separators "") default_separators text |}.

End RecursiveCharacterTextSplitter.

(** ** Coverage of a text by its chunks

    A window is a pair of an overlap, carried over from the text just before
    it, and a span of its own.  The windows of a text are contiguous when
    every overlap is the end of the text that precedes its span. *)

Fixpoint contiguous (before : string) (ws : list (string * string)) : Prop :=
  match ws with
  | [] => True
  | (overlap, span) :: ws' =>
      (exists p, before = p +:+ overlap) /\ contiguous (before +:+ span) ws'
  end.

(** The coverage property as the specification states it: every chunk is an
    overlap followed by a span of its own, and the spans, in order,
    concatenate to the content. *)
Definition spans_reproduce_content (content : string) (chunks : list string) : Prop :=
  exists ws,
    String.concat "" (snd <$> ws) = content /\
    contiguous "" ws /\
    chunks = (fun w => fst w +:+ snd w) <$> ws.

(** The same with the whitespace handling of the splitter: every chunk is
    its window stripped, and a window that is empty once stripped gives no
    chunk. *)
Definition stripped_windows (ws : list (string * string)) : list string :=
  omap (fun w => _join_docs [fst w +:+ snd w] "") ws.

Definition stripped_spans_reproduce_content (content : string) (chunks : list string)
  : Prop :=
  exists ws,
    String.concat "" (snd <$> ws) = content /\
    contiguous "" ws /\
    chunks = stripped_windows ws.

(** A chunk of the right size: not empty, and of at most [chunk_size]
    characters. *)
Definition sized (chunk_size : nat) (c : string) : Prop :=
  c <> "" /\ String.length c <= chunk_size.

(** ** The libraries the pipeline calls

    [strptime_ymd s] is [datetime.strptime(s, '%Y-%m-%d')]: the date it
    parses ([inr]; the datetime is that date at midnight) or the message of
    the [ValueError] it raises ([inl]).  [fromisoformat s] is
    [datetime.fromisoformat(s)]: the naive fields of the datetime with its
    utc offset, if any, or the [ValueError] message.  [sub_days] is
    [dt - timedelta(days=n)] and [strftime_ymd] is
    [dt.strftime('%Y-%m-%d')]. *)
Class PyDatetime := {
  strptime_ymd : string -> string + date;
  fromisoformat : string -> string + (datetime * option Z);
  sub_days : datetime -> Z -> result datetime;
  strftime_ymd : datetime -> string
}.

(** [Store] is the state of the Chroma collection behind [vector_store].
    [add_documents st chunks] embeds and writes the chunks: it returns the
    exception raised, if any, and the store it leaves behind.
    [similarity_search st query k] is what a retriever built with
    [search_kwargs={"k": k}] returns from [invoke(query)]. *)
Class VectorStore (Store : Type) := {
  add_documents : Store -> list Document -> option exn * Store;
  similarity_search : Store -> string -> nat -> result (list Document)
}.

(** ** The world a run acts on: the vector store, the clock that
    [datetime.now()] reads, and the trace of log records and library calls *)

Record world (Store : Type) := World {
  vector_store : Store;
  clock : datetime;
  trace : list event
}.
Arguments World {Store} _ _ _.
Arguments vector_store {Store} _.
Arguments clock {Store} _.
Arguments trace {Store} _.

(** ** Reference instances of the library functions

    Executable stand-ins for [datetime] and for the Chroma store, used to run
    the model on concrete inputs.  The properties below are proved for
    arbitrary library functions; nothing depends on these. *)

Module Ref.

Definition digit_of (c : ascii) : option nat :=
  let n := nat_of_ascii c in
  if (48 <=? n) && (n <=? 57) then Some (n - 48) else None.

Fixpoint number_go (acc : nat) (s : string) : option nat :=
  match s with
  | EmptyString => Some acc
  | String c s' =>
      match digit_of c with
      | Some d => number_go (10 * acc + d) s'
      | None => None
      end
  end.

(** A non-empty run of at most [width] decimal digits. *)
Definition number (width : nat) (s : string) : option nat :=
  if (1 <=? String.length s) && (String.length s <=? width)
  then number_go 0 s else None.

Definition is_leap (y : nat) : bool :=
  (y mod 4 =? 0) && (negb (y mod 100 =? 0) || (y mod 400 =? 0)).

Definition days_in_month (y m : nat) : nat :=
  match m with
  | 1 | 3 | 5 | 7 | 8 | 10 | 12 => 31
  | 4 | 6 | 9 | 11 => 30
  | 2 => if is_leap y then 29 else 28
  | _ => 0
  end.

Definition valid_date (y m d : nat) : bool :=
  (1 <=? y) && (y <? 100 * 100) && (1 <=? m) && (m <=? 12)
  && (1 <=? d) && (d <=? days_in_month y m).

(** [datetime.strptime(s, '%Y-%m-%d')]: four digits, one or two digits for
    the month, one or two digits (or a space and a digit) for the day. *)
Definition strptime_ymd (s : string) : string + date :=
  let mismatch :=
    inl ("time data '" +:+ s +:+ "' does not match format '%Y-%m-%d'") in
  match str_split "-" s with
  | [ys; ms; ds] =>
      let ds := match ds with
                | String " " (String c EmptyString) => String c EmptyString
                | _ => ds
                end in
      match (if String.length ys =? 4 then number 4 ys else None),
            number 2 ms, number 2 ds with
      | Some y, Some m, Some d =>
          if (1 <=? m) && (m <=? 12) && (1 <=? d) && (d <=? 31) then
            if valid_date y m d then inr (mkDate y m d)
            else inl "day is out of range for month"
          else mismatch
      | _, _, _ => mismatch
      end
  | _ => mismatch
  end.

Definition exactly (width : nat) (s : string) : option nat :=
  if String.length s =? width then number width s else None.

Definition parse_clock (s : string) : option (nat * nat * nat) :=
  match str_split ":" s with
  | [hs; ms] =>
      match exactly 2 hs, exactly 2 ms with
      | Some h, Some m => if (h <? 24) && (m <? 60) then Some (h, m, 0) else None
      | _, _ => None
      end
  | [hs; ms; ss] =>
      match exactly 2 hs, exactly 2 ms, exactly 2 ss with
      | Some h, Some m, Some sec =>
          if (h <? 24) && (m <? 60) && (sec <? 60) then Some (h, m, sec) else None
      | _, _, _ => None
      end
  | _ => None
  end.

(** [datetime.fromisoformat(s)] on [YYYY-MM-DD], optionally followed by a
    separator character, [HH:MM] or [HH:MM:SS], and a [+HH:MM] or [-HH:MM]
    offset. *)
Definition fromisoformat (s : string) : string + (datetime * option Z) :=
  let invalid := inl ("Invalid isoformat string: '" +:+ s +:+ "'") in
  let ds := String.substring 0 10 s in
  match str_split "-" ds with
  | [ys; ms; dd] =>
      match exactly 4 ys, exactly 2 ms, exactly 2 dd with
      | Some y, Some m, Some d =>
          if valid_date y m d then
            match String.substring 10 (String.length s - 10) s with
            | EmptyString => inr (at_midnight (mkDate y m d), None)
            | String _ tstr =>
                let '(cs, tz) :=
                  match str_split "+" tstr, str_split "-" tstr with
                  | [cs; off], _ => (cs, Some (1%Z, off))
                  | _, [cs; off] => (cs, Some ((-1)%Z, off))
                  | _, _ => (tstr, None)
                  end in
                match parse_clock cs with
                | Some (h, mi, sec) =>
                    match tz with
                    | None => inr (mkDatetime (mkDate y m d) h mi sec 0, None)
                    | Some (sign, off) =>
                        match parse_clock off with
                        | Some (oh, om, _) =>
                            inr (mkDatetime (mkDate y m d) h mi sec 0,
                                 Some (sign * Z.of_nat (60 * oh + om))%Z)
                        | None => invalid
                        end
                    end
                | None => invalid
                end
            end
          else invalid
      | _, _, _ => invalid
      end
  | _ => invalid
  end.

(** Days since 1970-01-01 in the proleptic Gregorian calendar, and back. *)
Definition days_from_civil (y m d : Z) : Z :=
  let y := if (m <=? 2)%Z then (y - 1)%Z else y in
  let era := (y / 400)%Z in
  let yoe := (y - era * 400)%Z in
  let mp := if (m <=? 2)%Z then (m + 9)%Z else (m - 3)%Z in
  let doy := ((153 * mp + 2) / 5 + d - 1)%Z in
  let doe := (yoe * 365 + yoe / 4 - yoe / 100 + doy)%Z in
  (era * 146097 + doe - 719468)%Z.

Definition civil_from_days (z : Z) : Z * Z * Z :=
  let z := (z + 719468)%Z in
  let era := (z / 146097)%Z in
  let doe := (z - era * 146097)%Z in
  let yoe := ((doe - doe / 1460 + doe / 36524 - doe / 146096) / 365)%Z in
  let doy := (doe - (365 * yoe + yoe / 4 - yoe / 100))%Z in
  let mp := ((5 * doy + 2) / 153)%Z in
  let d := (doy - (153 * mp + 2) / 5 + 1)%Z in
  let m := if (mp <? 10)%Z then (mp + 3)%Z else (mp - 9)%Z in
  let y := (yoe + era * 400)%Z in
  (if (m <=? 2)%Z then (y + 1)%Z else y, m, d).

(** [dt - timedelta(days=n)] *)
Definition sub_days (dt : datetime) (n : Z) : result datetime :=
  let d := dt_date dt in
  let '(y, m, dd) :=
    civil_from_days
      (days_from_civil (Z.of_nat (year d)) (Z.of_nat (month d)) (Z.of_nat (day d)) - n) in
  if ((1 <=? y) && (y <=? 9999))%Z then
    Ok (mkDatetime (mkDate (Z.to_nat y) (Z.to_nat m) (Z.to_nat dd))
                   (hour dt) (minute dt) (second dt) (microsecond dt))
  else Raised (Raise "OverflowError" "date value out of range").

Definition zero_pad (width n : nat) : string :=
  let digits := str_nat n in
  String.concat "" (replicate (width - String.length digits) "0") +:+ digits.

(** [dt.strftime('%Y-%m-%d')] *)
Definition strftime_ymd (dt : datetime) : string :=
  zero_pad 4 (year (dt_date dt)) +:+ "-" +:+ zero_pad 2 (month (dt_date dt))
  +:+ "-" +:+ zero_pad 2 (day (dt_date dt)).

(** A store that keeps its records in insertion order, answers a query with
    its first [k] records, and refuses writes when its directory is not
    writable. *)
Record Store := mkStore { records : list Document; writable : bool }.

Definition add_documents (st : Store) (chunks : list Document) : option exn * Store :=
  if writable st then (None, mkStore (records st ++ chunks) true)
  else (Some (Raise "PermissionError" "[Errno 13] Permission denied: './data'"), st).

Definition similarity_search (st : Store) (query : string) (k : nat)
  : result (list Document) :=
  Ok (take k (records st)).

Definition python_datetime : PyDatetime :=
  Build_PyDatetime strptime_ymd fromisoformat sub_days strftime_ymd.

Definition chroma : VectorStore Store :=
  Build_VectorStore Store add_documents similarity_search.

End Ref.

(** ** Sample documents and worlds *)

Module Sample.

Definition news (publish_date content : string) : Document :=
  mkDocument content
    {[ "source" := "newsapi"; "competitor" := "Acme"; "publish_date" := publish_date ]}.

Definition undated_news (content : string) : Document :=
  mkDocument content {[ "source" := "newsapi"; "competitor" := "Acme" ]}.

Definition web (content : string) : Document :=
  mkDocument content
    {[ "source" := "website"; "url" := "https://acme.example";
       "fetch_date" := "2024-06-01" ]}.

Definition blog (content : string) : Document :=
  mkDocument content {[ "source" := "blog" ]}.

Definition unlabelled (content : string) : Document := mkDocument content ∅.

(** The clock reads 1 June 2024, 10:00. *)
Definition now : datetime := mkDatetime (mkDate 2024 6 1) 10 0 0 0.

Definition mixed_docs : list Document :=
  [ news "2024-06-01" "Acme ships a new product";
    web "Acme home page";
    news "2024-05-01" "Acme quarterly results";
    news "not-a-date" "Acme rumour";
    undated_news "Acme undated";
    news "2024-05-25T08:30:00Z" "Acme partners with Initech";
    blog "A post about Acme";
    unlabelled "Acme leaflet" ].

(** Eight recent news chunks followed by seven web chunks. *)
Definition fifteen_docs : list Document :=
  (news "2024-05-30" <$> ["n1"; "n2"; "n3"; "n4"; "n5"; "n6"; "n7"; "n8"])
  ++ (web <$> ["w1"; "w2"; "w3"; "w4"; "w5"; "w6"; "w7"]).

Definition world_with (docs : list Document) (writable : bool) : world Ref.Store :=
  World (Ref.mkStore docs writable) now [].

End Sample.

(** ** utils.py: format_docs_for_llm *)

(** One iteration of the loop: the block of document [i] (counted from 0). *)
Definition format_block (i : nat) (doc : Document) : string :=
  let metadata_str :=
    "Source: " +:+ default "N/A" (metadata doc !! "source")
    +:+ ", Date: " +:+ default "N/A" (metadata doc !! "publish_date") in
  "--- Document " +:+ str_nat (i + 1) +:+ " (" +:+ metadata_str +:+ ") ---"
  +:+ nl +:+ page_content doc +:+ nl +:+ "---".

Definition format_docs_for_llm (docs : list Document) : string :=
  String.concat nl (imap format_block docs).

(** ** utils.py: clean_text *)

Fixpoint string_drop (n : nat) (s : string) : string :=
  match n, s with
  | S k, String _ s' => string_drop k s'
  | _, _ => s
  end.

(** The number of leading characters of [s] that satisfy [p]. *)
Fixpoint span (p : ascii -> bool) (s : string) : nat :=
  match s with
  | String c s' => if p c then S (span p s') else 0
  | EmptyString => 0
  end.

(** [\d] on a code point below 256. *)
Definition isdigit (c : ascii) : bool :=
  let n := nat_of_ascii c in (48 <=? n) && (n <=? 57).

(** The length of the match of [r'\[\+\d+\s*chars\]'] at the start of [s],
    if there is one.  The digits, the whitespace and the letter [c] exclude
    one another, so the greedy match is the only one. *)
Definition match_truncation (s : string) : option nat :=
  if String.prefix "[+" s then
    let after_plus := string_drop 2 s in
    let digits := span isdigit after_plus in
    if digits =? 0 then None
    else
      let after_digits := string_drop digits after_plus in
      let spaces := span isspace after_digits in
      if String.prefix "chars]" (string_drop spaces after_digits)
      then Some (2 + digits + spaces + 6)
      else None
  else None.

(** [re.sub(r'\[\+\d+\s*chars\]', '', s)]: the leftmost non-overlapping
    matches are removed; [skip] characters of a match are still to be passed
    over. *)
Fixpoint remove_truncation_go (skip : nat) (s : string) : string :=
  match s with
  | EmptyString => EmptyString
  | String c s' =>
      match skip with
      | S k => remove_truncation_go k s'
      | O =>
          match match_truncation s with
          | Some n => remove_truncation_go (n - 1) s'
          | None => String c (remove_truncation_go 0 s')
          end
      end
  end.

Definition remove_truncation (s : string) : string := remove_truncation_go 0 s.

(** [re.sub(r'\s+', ' ', s)]: every maximal run of whitespace becomes one
    space; [in_run] tells that the previous character was whitespace. *)
Fixpoint collapse_whitespace_go (in_run : bool) (s : string) : string :=
  match s with
  | EmptyString => EmptyString
  | String c s' =>
      if isspace c then
        if in_run then collapse_whitespace_go true s'
        else String " " (collapse_whitespace_go true s')
      else String c (collapse_whitespace_go false s')
  end.

Definition collapse_whitespace (s : string) : string := collapse_whitespace_go false s.

Definition clean_text (text : string) : string :=
  if negb (truthy text) then ""
  else
    let text := remove_truncation text in
    let cleaned := strip (collapse_whitespace text) in
    cleaned.

(** A string is whitespace-normal when its only whitespace characters are
    single spaces between two other characters. *)
Fixpoint no_space_runs (prev_space : bool) (s : string) : bool :=
  match s with
  | EmptyString => negb prev_space
  | String c s' =>
      if isspace c
      then Ascii.eqb c " " && negb prev_space && no_space_runs true s'
      else no_space_runs false s'
  end.

Definition whitespace_normal (s : string) : bool :=
  match s with
  | EmptyString => true
  | _ => no_space_runs true s
  end.

(** [a in b] for strings, as a proposition. *)
Definition substring_of (a b : string) : Prop :=
  exists p q, b = p +:+ a +:+ q.

(** ** The collaborators of agent.py

    [chain_invoke prompt] is [(prompt | llm | StrOutputParser()).invoke] on
    the formatted prompt: the text the model answers, or the exception the
    call raises.  [load url] is [WebBaseLoader(web_path=url, ...).load()]. *)
Class ChatModel := { chain_invoke : string -> result string }.

Class WebLoader := { load : string -> result (list Document) }.

(** An article of a NewsAPI response.  [content] and [description] are
    [None] when the key is missing or null; [title], [url] and [publishedAt],
    which the API gives as strings, are [None] when the key is missing. *)
Record article := mkArticle {
  art_content : option string;
  art_description : option string;
  art_title : option string;
  art_url : option string;
  art_publishedAt : option string
}.

(** The dictionary that [get_everything] returns. *)
Record response := mkResponse { status : string; articles : list article }.

(** [newsapi.get_everything(q=q, language='en', from_param=from_param,
    sort_by='relevancy', page_size=config.NEWS_API_MAX_RESULTS)] *)
Class NewsClient := { get_everything : string -> string -> result response }.

(** [a or b or ""] on values that are strings or [None]. *)
Definition first_truthy (a b : option string) : string :=
  match a with
  | Some x => if truthy x then x else
                match b with
                | Some y => if truthy y then y else ""
                | None => ""
                end
  | None => match b with
            | Some y => if truthy y then y else ""
            | None => ""
            end
  end.

(** The body of [for article in all_articles['articles']]: the document made
    of an article, unless its cleaned content is empty. *)
Definition article_document (competitor_name : string) (a : article) : option Document :=
  let content := clean_text (first_truthy (art_content a) (art_description a)) in
  if negb (truthy content) then None
  else
    Some (mkDocument content
            {[ "source" := "newsapi";
               "competitor" := competitor_name;
               "title" := default "N/A" (art_title a);
               "url" := default "N/A" (art_url a);
               "publish_date" := default "N/A" (art_publishedAt a) ]}).

(** ** Sample collaborators of agent.py *)

Module Demo.

Definition chat : ChatModel :=
  {| chain_invoke prompt := Ok "Acme shipped a new product." |}.

(** A response with a truncated article, one that only has a description,
    and one with nothing but whitespace. *)
Definition acme_response : response :=
  mkResponse "ok"
    [ mkArticle (Some "Acme  ships a new product today [+1234 chars]")
                (Some "Acme launch") (Some "Acme launch day")
                (Some "https://news.example/acme") (Some "2024-05-30T09:00:00Z");
      mkArticle None (Some "Acme partners with Initech") (Some "Partnership")
                (Some "https://news.example/initech") None;
      mkArticle (Some "   ") None (Some "Empty") None (Some "2024-05-29T09:00:00Z") ].

Definition news_client : NewsClient :=
  {| get_everything q from_param := Ok acme_response |}.

End Demo.

Section Pipeline.

Context {py_datetime : PyDatetime} {Store : Type} {chroma : VectorStore Store}.

(** [dt.replace(tzinfo=None)] *)
Definition replace_tzinfo_None (dt : datetime * option Z) : datetime := fst dt.

(** ** retriever.py: filter_documents_by_date *)

(** The body of the [try] block up to the comparison (lines 93-96). *)
Definition parse_publish_date (publish_date_str : string) : string + datetime :=
  if contains_char "T" publish_date_str then
    match fromisoformat (replace_char "Z" "+00:00" publish_date_str) with
    | inr dt => inr (replace_tzinfo_None dt)
    | inl msg => inl msg
    end
  else
    match strptime_ymd publish_date_str with
    | inr d => inr (at_midnight d)
    | inl msg => inl msg
    end.

(** The local variables of the loop, and what it has logged so far. *)
Record filter_loop := FilterLoop {
  filtered_docs : list Document;
  news_count : nat;
  news_kept_count : nat;
  logged : list event
}.

Definition warn (msg : string) (st : filter_loop) : filter_loop :=
  FilterLoop (filtered_docs st) (news_count st) (news_kept_count st)
             (logged st ++ [Log WARNING msg]).

(** One iteration of [for doc in docs] (lines 86-107). *)
Definition filter_step (start_date : datetime) (st : filter_loop) (doc : Document)
  : filter_loop :=
  if bool_decide (source doc = Some "newsapi") then
    let st := FilterLoop (filtered_docs st) (S (news_count st))
                         (news_kept_count st) (logged st) in
    match metadata doc !! "publish_date" with
    | Some publish_date_str =>
        if truthy publish_date_str then
          match parse_publish_date publish_date_str with
          | inr publish_date =>
              if datetime_ge publish_date start_date then
                FilterLoop (filtered_docs st ++ [doc]) (news_count st)
                           (S (news_kept_count st)) (logged st)
              else st
          | inl _ =>
              warn ("Could not parse news date '" +:+ publish_date_str
                    +:+ "' for filtering.") st
          end
        else warn "News document missing 'publish_date' metadata for filtering." st
    | None => warn "News document missing 'publish_date' metadata for filtering." st
    end
  else
    FilterLoop (filtered_docs st ++ [doc]) (news_count st)
               (news_kept_count st) (logged st).

Definition filter_summary (start_date_str : string) (st : filter_loop) : string :=
  "Date filtering applied to " +:+ str_nat (news_count st)
  +:+ " news docs >= " +:+ start_date_str
  +:+ ". Kept " +:+ str_nat (news_kept_count st)
  +:+ " news docs. Total docs after filter (incl. non-news): "
  +:+ str_nat (length (filtered_docs st)) +:+ ".".

(** The function returns its list or raises, and emits log records. *)
Definition filter_documents_by_date (docs : list Document) (start_date_str : string)
  : result (list Document) * list event :=
  if bool_decide (docs = []) then (Ok [], [])
  else
    match strptime_ymd start_date_str with
    | inl msg => (Raised (ValueError msg), [])
    | inr d =>
        let st := foldl (filter_step (at_midnight d)) (FilterLoop [] 0 0 []) docs in
        (Ok (filtered_docs st),
         (logged st ++ [Log INFO (filter_summary start_date_str st)])%list)
    end.

(** *** The filter as the specification words it

    [parses_as s d]: the string parses to the date [d] under one of the two
    accepted formats, the ISO format for a string with a time part (zone
    discarded) and plain [YYYY-MM-DD] otherwise.  A news document is recent
    when its [publish_date] is present, parses, and the parsed date is not
    before the cutoff date. *)
Definition parses_as (s : string) (d : date) : Prop :=
  (contains_char "T" s = true /\
   exists dt tz, fromisoformat (replace_char "Z" "+00:00" s) = inr (dt, tz)
                 /\ dt_date dt = d)
  \/ (contains_char "T" s = false /\ strptime_ymd s = inr d).

Definition recent_news (cutoff : date) (doc : Document) : Prop :=
  exists s d,
    metadata doc !! "publish_date" = Some s /\
    parses_as s d /\
    date_ge d cutoff = true.

(** The decision the loop takes for one document, as a boolean. *)
Definition keeps (start_date : datetime) (doc : Document) : bool :=
  if bool_decide (source doc = Some "newsapi") then
    match metadata doc !! "publish_date" with
    | Some s =>
        truthy s &&
        match parse_publish_date s with
        | inr dt => datetime_ge dt start_date
        | inl _ => false
        end
    | None => false
    end
  else true.

(** ** The monad of the pipeline *)

Definition M (A : Type) : Type := world Store -> result A * world Store.

#[global] Instance M_ret : MRet M := fun A a w => (Ok a, w).

#[global] Instance M_bind : MBind M := fun A B k m w =>
  match m w with
  | (Ok a, w') => k a w'
  | (Raised e, w') => (Raised e, w')
  end.

(** [try: body except Exception as e: handler(e)] *)
Definition try_except {A} (body : M A) (handler : exn -> M A) : M A :=
  fun w =>
    match body w with
    | (Ok a, w') => (Ok a, w')
    | (Raised e, w') => handler e w'
    end.

Definition emit (evs : list event) : M unit :=
  fun w => (Ok tt, World (vector_store w) (clock w) (trace w ++ evs)).

Definition logging (lvl : level) (msg : string) : M unit := emit [Log lvl msg].

Definition lift {A} (r : result A) : M A := fun w => (r, w).

(** [vector_store.add_documents(chunks)] *)
Definition call_add_documents (chunks : list Document) : M unit :=
  fun w =>
    let '(err, st) := add_documents (vector_store w) chunks in
    let w' := World st (clock w) (trace w ++ [AddDocuments chunks]) in
    match err with
    | Some e => (Raised e, w')
    | None => (Ok tt, w')
    end.

(** ** retriever.py: process_and_store_documents, create_basic_retriever *)

Definition process_and_store_documents (docs : list Document) : M unit :=
  if bool_decide (docs = []) then
    logging WARNING "No documents received for processing and storage."
  else
    let text_splitter := RecursiveCharacterTextSplitter 1000 200 in
    let split_docs := @split_documents text_splitter docs in
    if bool_decide (split_docs = []) then
      logging WARNING ("Splitting " +:+ str_nat (length docs)
                       +:+ " documents resulted in zero chunks.")
    else
      logging INFO ("Adding " +:+ str_nat (length split_docs)
                    +:+ " chunks to the vector store...") ;;
      try_except
        (call_add_documents split_docs ;;
         logging INFO "Successfully added documents to vector store.")
        (fun e => logging ERROR ("Error adding documents to vector store: "
                                 +:+ exn_msg e)).

Definition call_similarity_search (query : string) (k : nat) : M (list Document) :=
  fun w => (similarity_search (vector_store w) query k,
            World (vector_store w) (clock w) (trace w ++ [Invoke k query])).

(** The retriever object, given by its [invoke]. *)
Definition create_basic_retriever (search_k : nat) (query : string)
  : M (list Document) :=
  call_similarity_search query search_k.

(** ** utils.py: get_date_n_days_ago *)

Definition get_date_n_days_ago (days : Z) : M string :=
  fun w =>
    match sub_days (clock w) days with
    | Ok date_n_days_ago => (Ok (strftime_ymd date_n_days_ago), w)
    | Raised e => (Raised e, w)
    end.

(** ** agent.py: retrieve_and_filter_context *)

Definition has_source (src : string) (doc : Document) : bool :=
  bool_decide (source doc = Some src).

Definition call_filter_documents_by_date (docs : list Document) (start_date_str : string)
  : M (list Document) :=
  let '(r, evs) := filter_documents_by_date docs start_date_str in
  emit evs ;; lift r.

(** [f"Recent news and website information about {competitor_name}"] *)
Definition context_query (competitor_name : string) : string :=
  "Recent news and website information about " +:+ competitor_name.

Definition retrieve_and_filter_context (competitor_name : string) (days_back : Z)
  : M (list Document) :=
  start_date_str ← get_date_n_days_ago days_back;
  let retriever := create_basic_retriever 15 in
  let query := context_query competitor_name in
  logging INFO ("Retrieving context for query: '" +:+ query +:+ "'") ;;
  retrieved_docs ← retriever query;
  logging INFO ("Retrieved " +:+ str_nat (length retrieved_docs)
                +:+ " documents initially (News + Web).") ;;
  filtered_docs ← call_filter_documents_by_date
                     (List.filter (has_source "newsapi") retrieved_docs)
                     start_date_str;
  let web_docs := List.filter (has_source "website") retrieved_docs in
  let filtered_docs := filtered_docs ++ web_docs in
  let final_docs := take 7 filtered_docs in
  logging INFO ("Providing " +:+ str_nat (length final_docs)
                +:+ " documents as context after filtering/combining.") ;;
  mret final_docs.

(** ** app.py, steps 2 and 3 of a run (lines 79 and 85) *)

Definition run_pipeline (all_docs : list Document) (competitor_name : string)
    (days_back : Z) : M (list Document) :=
  process_and_store_documents all_docs ;;
  retrieve_and_filter_context competitor_name days_back.

(** ** agent.py: collect_news_data *)

(** [newsapi] is the module-level client: [None] when its initialisation
    failed. *)
Definition collect_news_data (newsapi : option NewsClient)
    (competitor_name : string) (days_back : Z) : M (list Document) :=
  match newsapi with
  | None => logging ERROR "NewsAPI client not initialized." ;; mret []
  | Some client =>
      if negb (truthy competitor_name) then
        logging WARNING "No competitor name provided for news search." ;; mret []
      else
        start_date_str ← get_date_n_days_ago days_back;
        logging INFO ("Fetching news for '" +:+ competitor_name +:+ "' from "
                      +:+ start_date_str +:+ "...") ;;
        match @get_everything client competitor_name start_date_str with
        | Raised e =>
            logging ERROR ("Error fetching news from NewsAPI: " +:+ exn_msg e) ;;
            mret []
        | Ok all_articles =>
            docs ←
              (if String.eqb (status all_articles) "ok" then
                 logging INFO ("Received " +:+ str_nat (length (articles all_articles))
                               +:+ " articles from NewsAPI.") ;;
                 mret (omap (article_document competitor_name) (articles all_articles))
               else
                 logging WARNING
                   ("NewsAPI request failed or returned no articles. Status: "
                    +:+ status all_articles) ;;
                 mret []);
            logging INFO ("Created " +:+ str_nat (length docs)
                          +:+ " Document objects from fetched news.") ;;
            mret docs
        end
  end.

(** ** agent.py: summarize_information *)

(** The prompt template with its two variables filled in. *)
Definition summary_prompt (competitor context : string) : string :=
  nl +:+ "You are an AI assistant specialized in competitive intelligence analysis."
  +:+ nl +:+ "Your task is to provide a concise summary of the key news and developments about a competitor based *only* on the provided context from news articles and the competitor's website."
  +:+ nl +:+ "Focus on factual information like product launches, financial performance mentions, partnerships, leadership changes, website announcements, or significant market activities mentioned in the text."
  +:+ nl +:+ "Do not add any information not present in the context. Do not make assumptions or predictions. Clearly distinguish if information comes from news or the website if possible, otherwise synthesize concisely."
  +:+ nl +:+ nl +:+ "Competitor: " +:+ competitor
  +:+ nl +:+ nl +:+ "Context Articles/Web Content:"
  +:+ nl +:+ context
  +:+ nl +:+ nl +:+ "Concise Summary of Key Developments:" +:+ nl.

(** [llm] is the module-level variable: [None] when the initialisation of
    the model failed. *)
Definition summarize_information (llm : option ChatModel)
    (context_docs : list Document) (competitor_name : string) : M string :=
  match llm with
  | None => mret "Error: LLM not initialized."
  | Some chat =>
      if bool_decide (context_docs = []) then
        mret ("No relevant news or website content found for " +:+ competitor_name
              +:+ " in the specified timeframe to summarize.")
      else
        let context_str := format_docs_for_llm context_docs in
        logging INFO ("Generating summary for '" +:+ competitor_name +:+ "'...") ;;
        try_except
          (summary ← lift (@chain_invoke chat (summary_prompt competitor_name context_str));
           logging INFO "Summary generation complete." ;;
           mret summary)
          (fun e =>
             logging ERROR ("Error during summary generation: " +:+ exn_msg e) ;;
             mret ("Error generating summary: " +:+ exn_msg e))
  end.

(** ** agent.py: scrape_website_data *)

(** [doc.metadata.setdefault('source', 'website')], then the two
    assignments. *)
Definition stamp_web_doc (fetch_date_str url : string) (doc : Document) : Document :=
  let md := metadata doc in
  let md := match md !! "source" with
            | Some _ => md
            | None => <["source" := "website"]> md
            end in
  mkDocument (page_content doc) (<["url" := url]> (<["fetch_date" := fetch_date_str]> md)).

(** agent.py never imports [datetime], so evaluating [datetime.now()] on
    line 106 raises [NameError]; the lines after it are modelled as written. *)
Definition scrape_website_data `{WebLoader} (url : string) : M (list Document) :=
  if negb (truthy url) then mret []
  else
    logging INFO ("Attempting to scrape website: " +:+ url) ;;
    try_except
      (web_docs ← lift (load url);
       fetch_date_str ← lift (Raised (Raise "NameError" "name 'datetime' is not defined")
                               : result string);
       let web_docs := stamp_web_doc fetch_date_str url <$> web_docs in
       logging INFO ("Successfully scraped " +:+ str_nat (length web_docs)
                     +:+ " document sections from " +:+ url) ;;
       mret web_docs)
      (fun e =>
         logging ERROR ("Error scraping website " +:+ url +:+ ": " +:+ exn_msg e) ;;
         mret []).

(** The propagation policy as the specification states it: a failed upsert
    aborts the run with the error that [add_documents] raised. *)
Definition aborts_on_upsert_failure (all_docs : list Document)
    (competitor_name : string) (days_back : Z) (w : world Store) : Prop :=
  forall e st',
    add_documents (vector_store w)
      (@split_documents (RecursiveCharacterTextSplitter 1000 200) all_docs)
    = (Some e, st') ->
    exists w', run_pipeline all_docs competitor_name days_back w = (Raised e, w').

(** * Properties *)

(** ** Dates *)

Lemma nat_compare_0_ge (n : nat) : is_ge (Nat.compare n 0) = true.
Proof. destruct n; reflexivity. Qed.

Lemma lex_ge (c1 c2 : comparison) :
  is_ge c1 = true -> is_ge c2 = true -> is_ge (lex c1 c2) = true.
Proof. destruct c1; simpl; auto. Qed.

(** Against midnight of the cutoff date, comparing datetimes is comparing
    dates. *)
Lemma datetime_ge_midnight (dt : datetime) (d : date) :
  datetime_ge dt (at_midnight d) = date_ge (dt_date dt) d.
Proof.
  unfold datetime_ge, date_ge, datetime_compare. simpl.
  destruct (date_compare (dt_date dt) d) eqn:E; simpl; try reflexivity.
  unfold time_compare. simpl.
  repeat apply lex_ge; apply nat_compare_0_ge.
Qed.

(** ** The date filter *)

Lemma filter_step_docs (start_date : datetime) (st : filter_loop) (doc : Document) :
  filtered_docs (filter_step start_date st doc)
  = filtered_docs st ++ (if keeps start_date doc then [doc] else []).
Proof.
  unfold filter_step, keeps, warn.
  case_bool_decide; simpl; [|reflexivity].
  destruct (metadata doc !! "publish_date") as [s|]; simpl;
    [|by rewrite app_nil_r].
  destruct (truthy s); simpl; [|by rewrite app_nil_r].
  destruct (parse_publish_date s) as [msg|dt]; simpl; [by rewrite app_nil_r|].
  destruct (datetime_ge dt start_date); simpl; [reflexivity|by rewrite app_nil_r].
Qed.

Lemma filter_loop_docs (start_date : datetime) (docs : list Document) (st : filter_loop) :
  filtered_docs (foldl (filter_step start_date) st docs)
  = filtered_docs st ++ List.filter (keeps start_date) docs.
Proof.
  revert st. induction docs as [|doc docs IH]; intros st; simpl.
  - by rewrite app_nil_r.
  - rewrite IH, filter_step_docs.
    destruct (keeps start_date doc); simpl.
    + by rewrite <- app_assoc.
    + by rewrite app_nil_r.
Qed.

(** With a cutoff that parses the function returns, and what it returns is
    the input filtered by [keeps]. *)
Lemma filter_documents_by_date_Ok (docs : list Document) (start_date_str : string)
    (cutoff : date) :
  strptime_ymd start_date_str = inr cutoff ->
  fst (filter_documents_by_date docs start_date_str)
  = Ok (List.filter (keeps (at_midnight cutoff)) docs).
Proof.
  intros Hc. unfold filter_documents_by_date.
  case_bool_decide as Hd; [by subst|].
  rewrite Hc. simpl. by rewrite filter_loop_docs.
Qed.

(** Whatever the cutoff string, a list that is returned is the input
    filtered by some decision per document. *)
Lemma filter_documents_by_date_inv (docs : list Document) (start_date_str : string)
    (out : list Document) :
  fst (filter_documents_by_date docs start_date_str) = Ok out ->
  exists f, out = List.filter f docs.
Proof.
  unfold filter_documents_by_date.
  case_bool_decide as Hd.
  - subst. simpl. intros [= <-]. by exists (fun _ => true).
  - destruct (strptime_ymd start_date_str) as [msg|cutoff]; simpl; [done|].
    intros [= <-]. exists (keeps (at_midnight cutoff)). apply filter_loop_docs.
Qed.

Lemma list_filter_sublist {A} (f : A -> bool) (l : list A) :
  List.filter f l `sublist_of` l.
Proof.
  induction l as [|x l IH]; simpl; [constructor|].
  destruct (f x); by constructor.
Qed.

Lemma elem_of_list_filter {A} (f : A -> bool) (l : list A) (x : A) :
  x ∈ List.filter f l <-> x ∈ l /\ f x = true.
Proof. rewrite !list_elem_of_In. apply filter_In. Qed.

Lemma keeps_other_source (start_date : datetime) (doc : Document) :
  source doc <> Some "newsapi" -> keeps start_date doc = true.
Proof. intros H. unfold keeps. by rewrite bool_decide_eq_false_2. Qed.

Lemma truthy_nonempty (s : string) : truthy s = true <-> s <> "".
Proof.
  unfold truthy. destruct (String.eqb_spec s ""); simpl; split; congruence.
Qed.

Lemma parse_publish_date_parses_as (s : string) (dt : datetime) :
  parse_publish_date s = inr dt -> parses_as s (dt_date dt).
Proof.
  unfold parse_publish_date, parses_as.
  destruct (contains_char "T" s).
  - destruct (fromisoformat _) as [msg|[dt' tz]] eqn:E; [done|].
    intros [= <-]. left. split; [done|]. by exists dt', tz.
  - destruct (strptime_ymd s) as [msg|d] eqn:E; [done|].
    intros [= <-]. by right.
Qed.




(** C3. With a cutoff that parses, every input document whose source is not
    "newsapi" (a website document, or one with no source key) is in the
    returned list, whatever the cutoff and whether or not it has a
    [publish_date]: the documents of other sources come out exactly as they
    went in. *)
Theorem other_sources_always_kept (docs : list Document) (start_date_str : string)
    (cutoff : date) :
  strptime_ymd start_date_str = inr cutoff ->
  exists out,
    fst (filter_documents_by_date docs start_date_str) = Ok out /\
    (forall doc, doc ∈ docs -> source doc <> Some "newsapi" -> doc ∈ out) /\
    List.filter (fun doc => negb (has_source "newsapi" doc)) out
    = List.filter (fun doc => negb (has_source "newsapi" doc)) docs.
Proof.
  intros Hc. eexists. split; [by apply filter_documents_by_date_Ok|]. split.
  - intros doc Hin Hsrc. apply elem_of_list_filter.
    auto using keeps_other_source.
  - induction docs as [|doc docs IH]; simpl; [done|].
    unfold has_source at 2. case_bool_decide as Hsrc; simpl.
    + destruct (keeps _ doc); simpl; [|done].
      unfold has_source at 1. by rewrite bool_decide_eq_true_2.
    + rewrite keeps_other_source by done. simpl.
      unfold has_source at 1. rewrite bool_decide_eq_false_2 by done.
      simpl. by f_equal.
Qed.

(** C10. Whenever [filter_documents_by_date] returns, its output is a
    subsequence of its input, in the input's order: nothing is added,
    duplicated or moved.  It returns unless the input is non-empty and the
    cutoff string does not parse, in which case it raises the [ValueError]
    of [strptime]. *)
Theorem filter_output_is_subsequence (docs : list Document) (start_date_str : string) :
  match fst (filter_documents_by_date docs start_date_str) with
  | Ok out => out `sublist_of` docs
  | Raised e =>
      docs <> [] /\
      exists msg, strptime_ymd start_date_str = inl msg /\ e = ValueError msg
  end.
Proof.
  destruct (fst (filter_documents_by_date docs start_date_str)) as [out|e] eqn:E.
  - apply filter_documents_by_date_inv in E as [f ->].
    apply list_filter_sublist.
  - revert E. unfold filter_documents_by_date.
    case_bool_decide as Hd; [done|].
    destruct (strptime_ymd start_date_str) as [msg|d]; simpl; [|done].
    intros [= <-]. eauto.
Qed.

(** ** The orchestrator *)

Ltac run_monad :=
  unfold mbind, M_bind, mret, M_ret, logging, emit, lift,
    call_similarity_search, create_basic_retriever, get_date_n_days_ago,
    call_filter_documents_by_date, try_except, call_add_documents in *;
  simpl in *.

(** When the clock arithmetic, the search and the filter succeed, the
    orchestrator returns the first seven of filtered news followed by web
    documents. *)
Lemma retrieve_and_filter_context_Ok (competitor_name : string) (days_back : Z)
    (w : world Store) (d0 : datetime) (retrieved_docs fd : list Document) :
  sub_days (clock w) days_back = Ok d0 ->
  similarity_search (vector_store w) (context_query competitor_name) 15
  = Ok retrieved_docs ->
  fst (filter_documents_by_date (List.filter (has_source "newsapi") retrieved_docs)
         (strftime_ymd d0)) = Ok fd ->
  fst (retrieve_and_filter_context competitor_name days_back w)
  = Ok (take 7 (fd ++ List.filter (has_source "website") retrieved_docs)).
Proof.
  intros Hd Hs Hf. unfold retrieve_and_filter_context. run_monad.
  rewrite Hd. simpl. rewrite Hs.
  destruct (filter_documents_by_date _ _) as [r evs]. simpl in Hf. subst r.
  reflexivity.
Qed.

(** Conversely, a returned context comes from such a run. *)
Lemma retrieve_and_filter_context_inv (competitor_name : string) (days_back : Z)
    (w : world Store) (out : list Document) :
  fst (retrieve_and_filter_context competitor_name days_back w) = Ok out ->
  exists d0 retrieved_docs fd,
    sub_days (clock w) days_back = Ok d0 /\
    similarity_search (vector_store w) (context_query competitor_name) 15
    = Ok retrieved_docs /\
    fst (filter_documents_by_date
           (List.filter (has_source "newsapi") retrieved_docs)
           (strftime_ymd d0)) = Ok fd /\
    out = take 7 (fd ++ List.filter (has_source "website") retrieved_docs).
Proof.
  unfold retrieve_and_filter_context. run_monad.
  destruct (sub_days (clock w) days_back) as [d0|e] eqn:Hd; simpl; [|done].
  destruct (similarity_search _ _ _) as [retrieved_docs|e] eqn:Hs; simpl; [|done].
  destruct (filter_documents_by_date _ _) as [[fd|e] evs] eqn:Hf; simpl; [|done].
  intros [= <-]. exists d0, retrieved_docs, fd. by rewrite Hf.
Qed.

Lemma list_filter_sublist_mono {A} (f : A -> bool) (l1 l2 : list A) :
  l1 `sublist_of` l2 -> List.filter f l1 `sublist_of` List.filter f l2.
Proof.
  induction 1 as [|x l1 l2 _ IH|x l1 l2 _ IH]; simpl.
  - constructor.
  - destruct (f x); [by constructor|done].
  - destruct (f x); [by constructor|done].
Qed.

Lemma has_source_true (src : string) (doc : Document) :
  has_source src doc = true <-> source doc = Some src.
Proof. unfold has_source. apply bool_decide_eq_true. Qed.

(** C4. When its steps succeed, the orchestrator returns exactly the first
    min(7, length) entries of the combined list (filtered news followed by
    web documents), a prefix and not a re-ranking; when fifteen documents
    survive, it returns seven, the first seven of that sequence. *)
Theorem context_is_prefix_of_combined (competitor_name : string) (days_back : Z)
    (w : world Store) (d0 : datetime) (retrieved_docs fd : list Document) :
  sub_days (clock w) days_back = Ok d0 ->
  similarity_search (vector_store w) (context_query competitor_name) 15
  = Ok retrieved_docs ->
  fst (filter_documents_by_date (List.filter (has_source "newsapi") retrieved_docs)
         (strftime_ymd d0)) = Ok fd ->
  let combined := fd ++ List.filter (has_source "website") retrieved_docs in
  exists out,
    fst (retrieve_and_filter_context competitor_name days_back w) = Ok out /\
    out = take 7 combined /\
    out `prefix_of` combined /\
    length out = Nat.min 7 (length combined) /\
    (length combined = 15 -> length out = 7).
Proof.
  intros Hd Hs Hf combined. exists (take 7 combined).
  split; [by apply retrieve_and_filter_context_Ok with d0|].
  split; [done|]. split; [apply prefix_take|].
  rewrite length_take. split; [done|]. intros ->. reflexivity.
Qed.

(** C5. The filter keeps the relative order of its input inside each source
    partition (the news documents it returns are a subsequence of the input's
    news documents, the others are the input's others unchanged), and the
    orchestrator puts the web documents, in retrieval order, after the
    filtered news documents, in retrieval order. *)
Theorem partitions_keep_order_news_then_web (competitor_name : string)
    (days_back : Z) (w : world Store) (d0 : datetime)
    (retrieved_docs fd : list Document) :
  sub_days (clock w) days_back = Ok d0 ->
  similarity_search (vector_store w) (context_query competitor_name) 15
  = Ok retrieved_docs ->
  fst (filter_documents_by_date (List.filter (has_source "newsapi") retrieved_docs)
         (strftime_ymd d0)) = Ok fd ->
  (forall docs start_date_str out,
     fst (filter_documents_by_date docs start_date_str) = Ok out ->
     List.filter (has_source "newsapi") out
       `sublist_of` List.filter (has_source "newsapi") docs /\
     List.filter (fun doc => negb (has_source "newsapi" doc)) out
       `sublist_of` List.filter (fun doc => negb (has_source "newsapi" doc)) docs) /\
  fd `sublist_of` List.filter (has_source "newsapi") retrieved_docs /\
  List.filter (has_source "website") retrieved_docs `sublist_of` retrieved_docs /\
  fst (retrieve_and_filter_context competitor_name days_back w)
  = Ok (take 7 (fd ++ List.filter (has_source "website") retrieved_docs)).
Proof.
  intros Hd Hs Hf. split; [|split; [|split]].
  - intros docs s out [f ->]%filter_documents_by_date_inv.
    split; apply list_filter_sublist_mono, list_filter_sublist.
  - apply filter_documents_by_date_inv in Hf as [f ->].
    apply list_filter_sublist.
  - apply list_filter_sublist.
  - by apply retrieve_and_filter_context_Ok with d0.
Qed.

(** C9. A document whose source is neither "newsapi" nor "website" (or that
    has no source key) is never in the context the orchestrator returns: the
    orchestrator only takes those two partitions of the retrieved
    candidates. *)
Theorem other_sources_excluded_from_context (competitor_name : string)
    (days_back : Z) (w : world Store) (out : list Document) (doc : Document) :
  fst (retrieve_and_filter_context competitor_name days_back w) = Ok out ->
  source doc <> Some "newsapi" ->
  source doc <> Some "website" ->
  doc ∉ out.
Proof.
  intros (d0 & retrieved_docs & fd & _ & _ & Hf & ->)%retrieve_and_filter_context_inv
         Hn Hw Hin.
  apply filter_documents_by_date_inv in Hf as [f ->].
  apply (subseteq_take 7), elem_of_app in Hin as [Hin|Hin].
  - apply elem_of_list_filter in Hin as [Hin _].
    apply elem_of_list_filter in Hin as [_ Hsrc]. by apply has_source_true in Hsrc.
  - apply elem_of_list_filter in Hin as [_ Hsrc]. by apply has_source_true in Hsrc.
Qed.

(** ** Chunk and store *)

Lemma create_documents_aligned `{TextSplitter} (documents : list Document) :
  mjoin (imap (fun i text =>
                 (fun chunk =>
                    mkDocument chunk (default ∅ ((metadata <$> documents) !! i)))
                   <$> split_text text) (page_content <$> documents))
  = flat_map (fun d => (fun chunk => mkDocument chunk (metadata d))
                         <$> split_text (page_content d)) documents.
Proof.
  induction documents as [|d documents IH]; [done|].
  simpl. f_equal. exact IH.
Qed.

(** Every chunk is built from a piece of one document's text and that
    document's metadata. *)
Lemma split_documents_flat_map `{TextSplitter} (documents : list Document) :
  split_documents documents
  = flat_map (fun d => (fun chunk => mkDocument chunk (metadata d))
                         <$> split_text (page_content d)) documents.
Proof.
  unfold split_documents, create_documents.
  destruct documents as [|d documents]; [done|].
  rewrite <- create_documents_aligned. reflexivity.
Qed.

(** C8. Every chunk that the chunking step of [process_and_store_documents]
    produces from a document carries that document's metadata, unmodified:
    the chunks are, document by document, the pieces of the text each paired
    with the parent's metadata. *)
Theorem chunks_inherit_metadata (docs : list Document) :
  let text_splitter := RecursiveCharacterTextSplitter 1000 200 in
  @split_documents text_splitter docs
  = flat_map (fun d => (fun chunk => mkDocument chunk (metadata d))
                         <$> @split_text text_splitter (page_content d)) docs.
Proof. intros text_splitter. apply split_documents_flat_map. Qed.

(** C6. Given no documents, or documents whose chunking yields no chunk,
    [process_and_store_documents] returns normally, [add_documents] is not
    called (the trace gains one warning and nothing else) and the vector
    store is unchanged. *)
Theorem no_chunks_no_upsert (docs : list Document) (w : world Store) :
  docs = [] \/ @split_documents (RecursiveCharacterTextSplitter 1000 200) docs = [] ->
  exists msg,
    process_and_store_documents docs w
    = (Ok tt, World (vector_store w) (clock w) (trace w ++ [Log WARNING msg])).
Proof.
  intros Hz. unfold process_and_store_documents.
  case_bool_decide as Hd; [by eexists|].
  destruct Hz as [?|Hz]; [done|].
  rewrite bool_decide_eq_true_2 by done. by eexists.
Qed.

(** C1, as the code has it.  When [add_documents] raises during the upsert,
    [process_and_store_documents] catches the exception, logs it at ERROR
    level and returns normally; the run goes on to retrieval, on the store as
    the failed call left it. *)
Theorem upsert_failure_is_logged_not_raised (all_docs : list Document)
    (competitor_name : string) (days_back : Z) (w : world Store) (e : exn) (st' : Store) :
  let split_docs := @split_documents (RecursiveCharacterTextSplitter 1000 200) all_docs in
  split_docs <> [] ->
  add_documents (vector_store w) split_docs = (Some e, st') ->
  let w' :=
    World st' (clock w)
      (trace w ++
       [Log INFO ("Adding " +:+ str_nat (length split_docs)
                  +:+ " chunks to the vector store...");
        AddDocuments split_docs;
        Log ERROR ("Error adding documents to vector store: " +:+ exn_msg e)]) in
  process_and_store_documents all_docs w = (Ok tt, w') /\
  run_pipeline all_docs competitor_name days_back w
  = retrieve_and_filter_context competitor_name days_back w'.
Proof.
  intros split_docs Hne Hadd w'.
  assert (process_and_store_documents all_docs w = (Ok tt, w')) as Hp.
  { unfold process_and_store_documents.
    case_bool_decide as Hd; [by subst|].
    fold split_docs. rewrite bool_decide_eq_false_2 by done.
    run_monad. rewrite Hadd. simpl. unfold w'.
    by rewrite <- !app_assoc. }
  split; [done|].
  unfold run_pipeline, mbind, M_bind. by rewrite Hp.
Qed.

End Pipeline.

(** * Properties of the text splitter *)

(** ** Strings *)

Lemma string_app_nil_l (s : string) : "" +:+ s = s.
Proof. reflexivity. Qed.

Lemma string_app_cons (c : ascii) (s t : string) :
  String c s +:+ t = String c (s +:+ t).
Proof. reflexivity. Qed.

Lemma string_app_nil_r (s : string) : s +:+ "" = s.
Proof. induction s as [|c s IH]; [done|]. by rewrite string_app_cons, IH. Qed.

Lemma string_app_assoc (a b c : string) : (a +:+ b) +:+ c = a +:+ (b +:+ c).
Proof. induction a as [|x a IH]; [done|]. by rewrite !string_app_cons, IH. Qed.

Lemma concat_empty_cons (x : string) (l : list string) :
  String.concat "" (x :: l) = x +:+ String.concat "" l.
Proof. destruct l; simpl; [by rewrite string_app_nil_r|done]. Qed.

Lemma concat_empty_app (l1 l2 : list string) :
  String.concat "" (l1 ++ l2) = String.concat "" l1 +:+ String.concat "" l2.
Proof.
  induction l1 as [|x l1 IH]; [done|].
  rewrite <- app_comm_cons, !concat_empty_cons, IH. by rewrite string_app_assoc.
Qed.

Lemma prefix_app (sep s : string) :
  String.prefix sep s = true -> exists s2, s = sep +:+ s2.
Proof.
  revert s. induction sep as [|c sep IH]; intros s.
  - by exists s.
  - destruct s as [|x s]; simpl.
    { done. }
    destruct (ascii_dec c x) as [->|]; [|done].
    intros [s2 ->]%IH. by exists s2.
Qed.

Lemma split_go_skip (sep cur s1 s2 : string) :
  split_go sep (String.length s1) cur (s1 +:+ s2) = split_go sep 0 cur s2.
Proof. induction s1 as [|c s1 IH]; [done|]. rewrite string_app_cons. exact IH. Qed.

Lemma split_go_nonempty (sep : string) (skip : nat) (cur s : string) :
  split_go sep skip cur s <> [].
Proof.
  revert skip cur. induction s as [|c s IH]; intros skip cur; cbn [split_go].
  { done. }
  destruct skip; [|apply IH].
  destruct (String.prefix sep (String c s)); [done|apply IH].
Qed.

Lemma concat_cons_nonempty (sep x : string) (l : list string) :
  l <> [] -> String.concat sep (x :: l) = x +:+ sep +:+ String.concat sep l.
Proof. destruct l; done. Qed.

Lemma string_length_app (a b : string) :
  String.length (a +:+ b) = String.length a + String.length b.
Proof.
  induction a as [|x a IH]; [done|]. rewrite string_app_cons. simpl. by rewrite IH.
Qed.

(** Joining the pieces with the separator gives the text back. *)
Lemma split_go_join (sep : string) (n : nat) (s cur : string) :
  sep <> "" -> String.length s <= n ->
  String.concat sep (split_go sep 0 cur s) = cur +:+ s.
Proof.
  intros Hsep. revert s cur. induction n as [|n IH]; intros s cur Hn.
  - destruct s; [|simpl in Hn; lia]. simpl. by rewrite string_app_nil_r.
  - destruct s as [|c s]; [simpl; by rewrite string_app_nil_r|].
    cbn [split_go].
    destruct (String.prefix sep (String c s)) eqn:Hp.
    + apply prefix_app in Hp as [s2 Hs].
      destruct sep as [|x sep]; [done|].
      rewrite string_app_cons in Hs. injection Hs as -> ->.
      replace (String.length (String x sep) - 1) with (String.length sep)
        by (simpl; lia).
      rewrite split_go_skip.
      rewrite concat_cons_nonempty by apply split_go_nonempty.
      rewrite IH; [done|].
      simpl in Hn. rewrite string_length_app in Hn. lia.
    + rewrite IH by (simpl in Hn; lia).
      rewrite string_app_assoc. done.
Qed.

Lemma str_split_join (sep s : string) :
  sep <> "" -> String.concat sep (str_split sep s) = s.
Proof. intros Hsep. unfold str_split. by rewrite (split_go_join sep (String.length s)). Qed.

Lemma join_pairs_flat_map (sep : string) (ps : list string) :
  join_pairs (flat_map (fun p => [sep; p]) ps) = (fun p => sep +:+ p) <$> ps.
Proof. induction ps as [|p ps IH]; [done|]. simpl. by rewrite IH. Qed.

Lemma concat_head_app (sep a x : string) (l : list string) :
  String.concat sep ((a +:+ x) :: l) = a +:+ String.concat sep (x :: l).
Proof. destruct l; [done|]. simpl. by rewrite string_app_assoc. Qed.

Lemma concat_sep_as_concat_empty (sep p0 : string) (ps : list string) :
  String.concat "" (p0 :: ((fun p => sep +:+ p) <$> ps)) = String.concat sep (p0 :: ps).
Proof.
  revert p0. induction ps as [|p ps IH]; intros p0.
  { done. }
  rewrite fmap_cons, concat_empty_cons, IH, concat_head_app.
  by rewrite (concat_cons_nonempty sep p0 (p :: ps)).
Qed.

Lemma concat_empty_filter (l : list string) :
  String.concat "" (List.filter (fun s => negb (String.eqb s "")) l)
  = String.concat "" l.
Proof.
  induction l as [|x l IH]; [done|].
  simpl List.filter. rewrite concat_empty_cons.
  destruct (String.eqb_spec x "") as [->|]; simpl negb; cbv iota.
  - by rewrite IH.
  - by rewrite concat_empty_cons, IH.
Qed.

Lemma concat_list_chars (s : string) : String.concat "" (list_chars s) = s.
Proof.
  induction s as [|c s IH]; [done|].
  cbn [list_chars]. by rewrite concat_empty_cons, IH.
Qed.

(** The pieces a text is split into, separators kept, concatenate to the
    text. *)
Lemma split_text_with_regex_concat (text separator : string) :
  String.concat "" (_split_text_with_regex text separator) = text.
Proof.
  unfold _split_text_with_regex. rewrite concat_empty_filter.
  destruct (truthy separator) eqn:Ht.
  - apply truthy_nonempty in Ht.
    unfold re_split_captured.
    pose proof (str_split_join separator text Ht) as Hj.
    destruct (str_split separator text) as [|p0 ps] eqn:Hsp.
    + by apply split_go_nonempty in Hsp.
    + by rewrite join_pairs_flat_map, concat_sep_as_concat_empty.
  - apply concat_list_chars.
Qed.

Lemma list_chars_length (s x : string) :
  x ∈ list_chars s -> String.length x = 1.
Proof.
  induction s as [|c s IH]; cbn [list_chars].
  - by intros ?%elem_of_nil.
  - intros [->|?]%elem_of_cons; [done|auto].
Qed.

Lemma split_chars_length (text x : string) :
  x ∈ _split_text_with_regex text "" -> String.length x = 1.
Proof.
  unfold _split_text_with_regex. simpl truthy. cbv iota.
  rewrite list_elem_of_In. intros [Hin _]%filter_In.
  apply list_chars_length with text. by apply list_elem_of_In.
Qed.

(** ** Windows *)

Lemma contiguous_weaken (b' b : string) (ws : list (string * string)) :
  contiguous b ws -> contiguous (b' +:+ b) ws.
Proof.
  revert b. induction ws as [|[o f] ws IH]; intros b; [done|].
  simpl. intros [[p ->] Hws]. split.
  - exists (b' +:+ p). by rewrite string_app_assoc.
  - rewrite string_app_assoc. by apply IH.
Qed.

Lemma contiguous_shift (b : string) (ws : list (string * string)) :
  contiguous "" ws -> contiguous b ws.
Proof.
  intros Hc. apply (contiguous_weaken b) in Hc. by rewrite string_app_nil_r in Hc.
Qed.

Lemma contiguous_app (b : string) (ws1 ws2 : list (string * string)) :
  contiguous b ws1 ->
  contiguous (b +:+ String.concat "" (snd <$> ws1)) ws2 ->
  contiguous b (ws1 ++ ws2).
Proof.
  revert b. induction ws1 as [|[o f] ws1 IH]; intros b.
  - simpl. by rewrite string_app_nil_r.
  - rewrite fmap_cons, concat_empty_cons. simpl.
    intros [Ho H1] H2. split; [done|].
    apply IH; [done|]. by rewrite string_app_assoc.
Qed.

Lemma stripped_windows_app (ws1 ws2 : list (string * string)) :
  stripped_windows (ws1 ++ ws2) = stripped_windows ws1 ++ stripped_windows ws2.
Proof. apply omap_app. Qed.

Lemma join_docs_window (o f : list string) :
  option_list (_join_docs (o ++ f) "")
  = stripped_windows [(String.concat "" o, String.concat "" f)].
Proof.
  unfold stripped_windows, _join_docs. simpl omap.
  rewrite concat_empty_app. simpl String.concat.
  by destruct (String.eqb _ "").
Qed.

Section Merge.

Variables (chunk_size chunk_overlap : nat).

Lemma pop_front_suffix (separator_len _len total : nat) (current_doc : list string) :
  exists k, snd (pop_front chunk_size chunk_overlap separator_len _len total current_doc)
            = drop k current_doc.
Proof.
  revert total. induction current_doc as [|d0 rest IH]; intros total.
  - by exists 0.
  - cbn [pop_front]. destruct (_ || _).
    + destruct (IH (total - (String.length d0
                    + (if 1 <? length (d0 :: rest) then separator_len else 0))))
        as [k Hk].
      exists (S k). by rewrite Hk.
    + by exists 0.
Qed.

(** One iteration either extends [current_doc], or emits it as a chunk and
    keeps an end of it as the overlap of the next. *)
Lemma merge_step_cases (docs current_doc : list string) (total : nat) (d : string) :
  exists total',
    merge_step chunk_size chunk_overlap "" (docs, current_doc, total) d
    = (docs, current_doc ++ [d], total')
    \/ exists k,
        merge_step chunk_size chunk_overlap "" (docs, current_doc, total) d
        = (docs ++ option_list (_join_docs current_doc ""),
           drop k current_doc ++ [d], total').
Proof.
  unfold merge_step.
  destruct (chunk_size <? _); [|eexists; by left].
  destruct (0 <? length current_doc); [|eexists; by left].
  destruct (pop_front_suffix (String.length "") (String.length d) total current_doc)
    as [k Hk].
  destruct (pop_front _ _ _ _ _ _) as [total1 current_doc1]. simpl in Hk. subst.
  eexists. right. by exists k.
Qed.

Lemma suffix_concat (k : nat) (l : list string) :
  exists p, String.concat "" l = p +:+ String.concat "" (drop k l).
Proof.
  exists (String.concat "" (take k l)).
  by rewrite <- concat_empty_app, take_drop.
Qed.

Lemma merge_loop_windows (splits : list string) :
  forall (docs current_doc : list string) (total : nat)
         (ws : list (string * string)) (o f : list string),
    docs = stripped_windows ws ->
    current_doc = o ++ f ->
    contiguous "" ws ->
    (exists p, String.concat "" (snd <$> ws) = p +:+ String.concat "" o) ->
    exists ws' o' f' total',
      foldl (merge_step chunk_size chunk_overlap "") (docs, current_doc, total) splits
      = (stripped_windows ws', o' ++ f', total') /\
      contiguous "" ws' /\
      (exists p, String.concat "" (snd <$> ws') = p +:+ String.concat "" o') /\
      String.concat "" (snd <$> ws') +:+ String.concat "" f'
      = String.concat "" (snd <$> ws) +:+ String.concat "" f
        +:+ String.concat "" splits.
Proof.
  induction splits as [|d splits IH]; intros docs current_doc total ws o f -> -> Hc Ho.
  - exists ws, o, f, total. simpl. by rewrite string_app_nil_r.
  - cbn [foldl].
    destruct (merge_step_cases (stripped_windows ws) (o ++ f) total d)
      as [total1 [Hstep|[k Hstep]]]; rewrite Hstep.
    + destruct (IH (stripped_windows ws) ((o ++ f) ++ [d]) total1 ws o (f ++ [d]))
        as (ws' & o' & f' & total' & Hfold & Hc' & Ho' & Hcat);
        [done|by rewrite app_assoc|done|done|].
      exists ws', o', f', total'. split; [done|]. split; [done|]. split; [done|].
      rewrite Hcat, concat_empty_cons, concat_empty_app, concat_empty_cons.
      simpl String.concat. by rewrite string_app_nil_r, !string_app_assoc.
    + set (w := (String.concat "" o, String.concat "" f)).
      destruct (IH (stripped_windows (ws ++ [w])) (drop k (o ++ f) ++ [d]) total1
                  (ws ++ [w]) (drop k (o ++ f)) [d])
        as (ws' & o' & f' & total' & Hfold & Hc' & Ho' & Hcat).
      * done.
      * done.
      * apply contiguous_app; [done|]. simpl. split; [|done].
        destruct Ho as [p Hp]. exists p. by rewrite string_app_nil_l.
      * rewrite fmap_app, concat_empty_app. simpl.
        destruct Ho as [p ->].
        destruct (suffix_concat k (o ++ f)) as [q Hq].
        exists (p +:+ q).
        rewrite !string_app_assoc, <- Hq.
        by rewrite concat_empty_app.
      * subst w. rewrite stripped_windows_app, <- join_docs_window in Hfold.
        exists ws', o', f', total'. split; [done|]. split; [done|]. split; [done|].
        rewrite Hcat, fmap_app, concat_empty_app, !concat_empty_cons.
        simpl. by rewrite !string_app_nil_r, !string_app_assoc.
Qed.

(** The chunks that [_merge_splits] makes of a list of pieces are the
    stripped windows of a contiguous cover of their concatenation. *)
Lemma merge_splits_windows (splits : list string) :
  exists ws,
    _merge_splits chunk_size chunk_overlap splits "" = stripped_windows ws /\
    contiguous "" ws /\
    String.concat "" (snd <$> ws) = String.concat "" splits.
Proof.
  destruct (merge_loop_windows splits [] [] 0 [] [] [])
    as (ws' & o' & f' & total' & Hfold & Hc' & Ho' & Hcat);
    [done|done|done|by exists ""|].
  unfold _merge_splits. rewrite Hfold.
  exists (ws' ++ [(String.concat "" o', String.concat "" f')]).
  split; [|split].
  - by rewrite stripped_windows_app, join_docs_window.
  - apply contiguous_app; [done|]. simpl. split; [|done].
    destruct Ho' as [p Hp]. exists p. by rewrite string_app_nil_l.
  - rewrite fmap_app, concat_empty_app. simpl.
    rewrite ?string_app_nil_r. by rewrite Hcat.
Qed.

(** [total] is the length of [current_doc] joined by the separator, all along
    the loop; so when [pop_front] has emptied [current_doc], [total] is 0,
    the condition of the [while] is false, and the loop of the library stops
    there too, without reading [current_doc[0]]. *)
Lemma pop_front_total (separator : string) (_len total : nat)
    (current_doc : list string) :
  total = String.length (String.concat separator current_doc) ->
  fst (pop_front chunk_size chunk_overlap (String.length separator) _len total
         current_doc)
  = String.length
      (String.concat separator
         (snd (pop_front chunk_size chunk_overlap (String.length separator) _len
                 total current_doc))).
Proof.
  revert total. induction current_doc as [|d0 rest IH]; intros total Ht.
  { done. }
  cbn [pop_front]. destruct (_ || _); [|done].
  apply IH. subst total. destruct rest as [|r rest].
  - simpl. lia.
  - rewrite concat_cons_nonempty by done.
    rewrite !string_length_app. simpl length.
    destruct (1 <? _) eqn:E; [lia|exfalso; apply Nat.ltb_ge in E; lia].
Qed.

Lemma concat_snoc_length (separator d : string) (l : list string) :
  String.length (String.concat separator (l ++ [d]))
  = String.length (String.concat separator l) + String.length d
    + (if 1 <? length (l ++ [d]) then String.length separator else 0).
Proof.
  induction l as [|x l IH].
  { simpl. lia. }
  rewrite <- app_comm_cons.
  rewrite concat_cons_nonempty by (destruct l; discriminate).
  rewrite !string_length_app, IH. clear IH.
  replace (1 <? length (x :: l ++ [d])) with true
    by (symmetry; apply Nat.ltb_lt; simpl; rewrite length_app; simpl; lia).
  destruct l as [|y l].
  - simpl. lia.
  - replace (1 <? length ((y :: l) ++ [d])) with true
      by (symmetry; apply Nat.ltb_lt; rewrite length_app; simpl; lia).
    rewrite (concat_cons_nonempty separator x (y :: l)) by done.
    rewrite !string_length_app. lia.
Qed.

Lemma merge_step_total (separator : string) (docs current_doc : list string)
    (total : nat) (d : string) :
  total = String.length (String.concat separator current_doc) ->
  let '(_, current_doc', total') :=
    merge_step chunk_size chunk_overlap separator (docs, current_doc, total) d in
  total' = String.length (String.concat separator current_doc').
Proof.
  intros Ht. unfold merge_step.
  destruct (chunk_size <? _); [|by rewrite concat_snoc_length, Ht].
  destruct (0 <? length current_doc); [|by rewrite concat_snoc_length, Ht].
  pose proof (pop_front_total separator (String.length d) total current_doc Ht) as Hp.
  destruct (pop_front _ _ _ _ _ _) as [total1 current_doc1]. simpl in Hp.
  by rewrite concat_snoc_length, Hp.
Qed.

Lemma merge_loop_total (separator : string) (splits : list string) :
  forall (docs current_doc : list string) (total : nat),
    total = String.length (String.concat separator current_doc) ->
    let '(_, current_doc', total') :=
      foldl (merge_step chunk_size chunk_overlap separator)
        (docs, current_doc, total) splits in
    total' = String.length (String.concat separator current_doc').
Proof.
  induction splits as [|d splits IH]; intros docs current_doc total Ht.
  { done. }
  cbn [foldl].
  pose proof (merge_step_total separator docs current_doc total d Ht) as Hs.
  destruct (merge_step _ _ _ _ _) as [[docs1 current_doc1] total1].
  by apply IH.
Qed.

End Merge.

Section Split.

Variables (chunk_size chunk_overlap : nat).
Hypothesis chunk_size_gt_1 : 1 < chunk_size.

(** Flushing [_good_splits] into [final_chunks]. *)
Lemma flush_windows (good : list string) (ws : list (string * string)) :
  contiguous "" ws ->
  exists ws1,
    match good with
    | [] => stripped_windows ws
    | _ => stripped_windows ws ++ _merge_splits chunk_size chunk_overlap good ""
    end = stripped_windows ws1 /\
    contiguous "" ws1 /\
    String.concat "" (snd <$> ws1)
    = String.concat "" (snd <$> ws) +:+ String.concat "" good.
Proof.
  intros Hc.
  destruct (merge_splits_windows chunk_size chunk_overlap good)
    as (wsm & Hm & Hcm & Hcat).
  destruct good as [|g good].
  - exists ws. simpl. by rewrite string_app_nil_r.
  - exists (ws ++ wsm). rewrite Hm, stripped_windows_app. split; [done|]. split.
    + apply contiguous_app; [done|]. by apply contiguous_shift.
    + by rewrite fmap_app, concat_empty_app, Hcat.
Qed.

Lemma split_loop_windows (recurse : option (string -> list string))
    (splits : list string) :
  match recurse with
  | Some f => forall s, stripped_spans_reproduce_content s (f s)
  | None => Forall (fun s => String.length s < chunk_size) splits
  end ->
  forall (good : list string) (ws : list (string * string)),
    contiguous "" ws ->
    exists ws' good',
      foldl (split_step chunk_size chunk_overlap recurse)
        (stripped_windows ws, good) splits
      = (stripped_windows ws', good') /\
      contiguous "" ws' /\
      String.concat "" (snd <$> ws') +:+ String.concat "" good'
      = String.concat "" (snd <$> ws) +:+ String.concat "" good
        +:+ String.concat "" splits.
Proof.
  induction splits as [|s splits IH]; intros Hrec good ws Hc.
  - exists ws, good. simpl. by rewrite string_app_nil_r.
  - cbn [foldl]. unfold split_step at 2.
    destruct (String.length s <? chunk_size) eqn:Hlen.
    + destruct (IH ltac:(destruct recurse; [done|by inversion Hrec])
                  (good ++ [s]) ws Hc) as (ws' & good' & Hfold & Hc' & Hcat).
      exists ws', good'. split; [done|]. split; [done|].
      rewrite Hcat, concat_empty_app, !concat_empty_cons. simpl.
      by rewrite string_app_nil_r, !string_app_assoc.
    + destruct (flush_windows good ws Hc) as (ws1 & -> & Hc1 & Hcat1).
      destruct recurse as [f|].
      * destruct (Hrec s) as (wsr & Hcatr & Hcr & ->).
        destruct (IH Hrec [] (ws1 ++ wsr)) as (ws' & good' & Hfold & Hc' & Hcat).
        { apply contiguous_app; [done|]. by apply contiguous_shift. }
        rewrite <- stripped_windows_app.
        exists ws', good'. split; [done|]. split; [done|].
        rewrite Hcat, fmap_app, concat_empty_app, Hcat1, Hcatr, concat_empty_cons.
        simpl. by rewrite !string_app_assoc.
      * apply Forall_cons in Hrec as [Hs _].
        apply Nat.ltb_ge in Hlen. lia.
Qed.

Lemma split_with_windows (recurse : option (string -> list string))
    (separator text : string) :
  match recurse with
  | Some f => forall s, stripped_spans_reproduce_content s (f s)
  | None => separator = ""
  end ->
  stripped_spans_reproduce_content text
    (split_with chunk_size chunk_overlap recurse separator text).
Proof.
  intros Hrec. unfold split_with.
  destruct (split_loop_windows recurse (_split_text_with_regex text separator))
    with (good := @nil string) (ws := @nil (string * string))
    as (ws' & good' & Hfold & Hc' & Hcat); [|done|].
  { destruct recurse; [done|]. subst separator.
    apply Forall_forall. intros x Hx.
    by rewrite (split_chars_length text x). }
  change (@nil string) with (stripped_windows []) at 1. rewrite Hfold.
  destruct (flush_windows good' ws' Hc') as (ws1 & -> & Hc1 & Hcat1).
  exists ws1. split; [|done].
  rewrite Hcat1, Hcat. simpl. apply split_text_with_regex_concat.
Qed.

Lemma split_text_windows (last : string) (separators : list string) :
  (exists l, separators = l ++ [""]) ->
  forall text,
    stripped_spans_reproduce_content text
      (_split_text chunk_size chunk_overlap last separators text).
Proof.
  induction separators as [|_s rest IH]; intros [l Hl] text.
  - by destruct l.
  - assert (_s <> "" -> exists l', rest = l' ++ [""]) as Hrest.
    { intros Hs. destruct l as [|x l]; simplify_eq/=; eauto. }
    cbn [_split_text].
    destruct (String.eqb_spec _s "") as [->|Hs].
    + by apply split_with_windows.
    + specialize (IH (Hrest Hs)).
      destruct (is_infix _s text); [|by apply IH].
      apply split_with_windows.
      destruct rest; [|done].
      destruct (Hrest Hs) as [l' Hl']. by destruct l'.
Qed.

End Split.

Lemma page_content_chunks (m : gmap string string) (chunks : list string) :
  page_content <$> ((fun chunk => mkDocument chunk m) <$> chunks) = chunks.
Proof. induction chunks as [|c chunks IH]; [done|]. simpl. by f_equal. Qed.

(** C7, as the code has it.  The content of a document is cut into
    consecutive spans that concatenate to the content exactly; every chunk is
    one span, preceded by the overlap carried over from the text just before
    it, with leading and trailing whitespace stripped, and a window that is
    empty once stripped gives no chunk.  Nothing but whitespace at the ends
    of a window is dropped. *)
Theorem chunk_spans_reproduce_content_up_to_strip (d : Document) :
  stripped_spans_reproduce_content (page_content d)
    (page_content <$> @split_documents (RecursiveCharacterTextSplitter 1000 200) [d]).
Proof.
  rewrite split_documents_flat_map. cbn [flat_map].
  rewrite app_nil_r, page_content_chunks.
  apply (split_text_windows 1000 200 ltac:(lia)
           (List.last default_separators "") default_separators).
  by exists [nl +:+ nl; nl; " "].
Qed.

(** * The properties on concrete runs *)


Lemma other_sources_always_kept_witness :
  exists out,
    fst (filter_documents_by_date (py_datetime := Ref.python_datetime)
           Sample.mixed_docs "2024-05-25") = Ok out /\
    (forall doc, doc ∈ Sample.mixed_docs -> source doc <> Some "newsapi" -> doc ∈ out) /\
    List.filter (fun doc => negb (has_source "newsapi" doc)) out
    = List.filter (fun doc => negb (has_source "newsapi" doc)) Sample.mixed_docs.
Proof.
  apply (other_sources_always_kept (py_datetime := Ref.python_datetime)
           Sample.mixed_docs "2024-05-25" (mkDate 2024 5 25)).
  vm_compute. reflexivity.
Defined.

Lemma context_is_prefix_of_combined_witness :
  let w := Sample.world_with Sample.fifteen_docs true in
  let combined :=
    take 8 Sample.fifteen_docs
    ++ List.filter (has_source "website") Sample.fifteen_docs in
  exists out,
    fst (retrieve_and_filter_context (py_datetime := Ref.python_datetime)
           (chroma := Ref.chroma) "Acme" 7 w) = Ok out /\
    out = take 7 combined /\
    out `prefix_of` combined /\
    length out = Nat.min 7 (length combined) /\
    (length combined = 15 -> length out = 7).
Proof.
  intros w.
  apply (context_is_prefix_of_combined (py_datetime := Ref.python_datetime)
           (chroma := Ref.chroma) "Acme" 7 w
           (mkDatetime (mkDate 2024 5 25) 10 0 0 0)
           Sample.fifteen_docs (take 8 Sample.fifteen_docs));
    vm_compute; reflexivity.
Defined.

Lemma partitions_keep_order_news_then_web_witness :
  let w := Sample.world_with Sample.mixed_docs true in
  let fd := [Sample.news "2024-06-01" "Acme ships a new product";
             Sample.news "2024-05-25T08:30:00Z" "Acme partners with Initech"] in
  fd `sublist_of` List.filter (has_source "newsapi") Sample.mixed_docs /\
  List.filter (has_source "website") Sample.mixed_docs `sublist_of` Sample.mixed_docs /\
  fst (retrieve_and_filter_context (py_datetime := Ref.python_datetime)
         (chroma := Ref.chroma) "Acme" 7 w)
  = Ok (take 7 (fd ++ List.filter (has_source "website") Sample.mixed_docs)).
Proof.
  intros w fd.
  apply (partitions_keep_order_news_then_web (py_datetime := Ref.python_datetime)
           (chroma := Ref.chroma) "Acme" 7 w
           (mkDatetime (mkDate 2024 5 25) 10 0 0 0) Sample.mixed_docs fd);
    vm_compute; reflexivity.
Defined.

Lemma other_sources_excluded_from_context_witness :
  let w := Sample.world_with Sample.mixed_docs true in
  let out := [Sample.news "2024-06-01" "Acme ships a new product";
              Sample.news "2024-05-25T08:30:00Z" "Acme partners with Initech";
              Sample.web "Acme home page"] in
  fst (retrieve_and_filter_context (py_datetime := Ref.python_datetime)
         (chroma := Ref.chroma) "Acme" 7 w) = Ok out /\
  (Sample.blog "A post about Acme" ∉ out) /\
  (Sample.unlabelled "Acme leaflet" ∉ out).
Proof.
  intros w out.
  assert (fst (retrieve_and_filter_context (py_datetime := Ref.python_datetime)
                 (chroma := Ref.chroma) "Acme" 7 w) = Ok out) as Hrun
    by (vm_compute; reflexivity).
  split; [exact Hrun|].
  split;
    apply (other_sources_excluded_from_context
             (py_datetime := Ref.python_datetime) (chroma := Ref.chroma)
             "Acme" 7 w out _ Hrun);
    vm_compute; discriminate.
Defined.

Lemma no_chunks_no_upsert_witness :
  let w := Sample.world_with Sample.mixed_docs true in
  exists msg,
    process_and_store_documents (chroma := Ref.chroma) [Sample.web " "] w
    = (Ok tt, World (vector_store w) (clock w) (trace w ++ [Log WARNING msg])).
Proof.
  intros w.
  apply (no_chunks_no_upsert (chroma := Ref.chroma) [Sample.web " "] w).
  right. vm_compute. reflexivity.
Defined.

Lemma upsert_failure_is_logged_not_raised_witness :
  let all_docs := [Sample.news "2024-06-01" "Acme ships a new product"] in
  let w := Sample.world_with Sample.mixed_docs false in
  let w' :=
    World (Ref.mkStore Sample.mixed_docs false) Sample.now
      [Log INFO "Adding 1 chunks to the vector store...";
       AddDocuments all_docs;
       Log ERROR ("Error adding documents to vector store: "
                  +:+ "[Errno 13] Permission denied: './data'")] in
  process_and_store_documents (chroma := Ref.chroma) all_docs w = (Ok tt, w') /\
  run_pipeline (py_datetime := Ref.python_datetime) (chroma := Ref.chroma)
    all_docs "Acme" 7 w
  = retrieve_and_filter_context (py_datetime := Ref.python_datetime)
      (chroma := Ref.chroma) "Acme" 7 w'.
Proof.
  intros all_docs w w'.
  apply (upsert_failure_is_logged_not_raised
           (py_datetime := Ref.python_datetime) (chroma := Ref.chroma)
           all_docs "Acme" 7 w
           (Raise "PermissionError" "[Errno 13] Permission denied: './data'")
           (Ref.mkStore Sample.mixed_docs false)).
  - vm_compute. discriminate.
  - vm_compute. reflexivity.
Defined.

(** C1 fails on the code: with a store that refuses the write, the run does
    not abort; it returns a context built from what the store already held. *)
Lemma upsert_failure_does_not_abort :
  ~ aborts_on_upsert_failure (py_datetime := Ref.python_datetime)
      (chroma := Ref.chroma)
      [Sample.news "2024-06-01" "Acme ships a new product"] "Acme" 7
      (Sample.world_with Sample.mixed_docs false).
Proof.
  intros Habort.
  edestruct Habort as [w' Hrun]; [vm_compute; reflexivity|].
  vm_compute in Hrun. discriminate.
Qed.

(** C7 fails on the code: a page that is a single space gives no chunk, so
    no spans of chunks concatenate to its content. *)
Lemma whitespace_content_is_not_reproduced :
  ~ spans_reproduce_content (page_content (Sample.web " "))
      (page_content
         <$> @split_documents (RecursiveCharacterTextSplitter 1000 200) [Sample.web " "]).
Proof.
  intros (ws & Hcat & _ & Hchunks).
  assert (page_content
            <$> @split_documents (RecursiveCharacterTextSplitter 1000 200)
                  [Sample.web " "] = []) as Hnone by (vm_compute; reflexivity).
  rewrite Hnone in Hchunks.
  destruct ws; [|discriminate]. discriminate.
Qed.

(** * Further properties of the date filter *)

Section FilterProperties.

Context {py_datetime : PyDatetime}.

(** X1. [filter_documents_by_date] raises exactly when its input is not
    empty and the cutoff string does not parse: it then raises the
    [ValueError] of [strptime] and has logged nothing.  On an empty input
    the cutoff string is never parsed. *)
Theorem filter_raises_iff_cutoff_unparsable (docs : list Document)
    (start_date_str : string) (e : exn) :
  filter_documents_by_date docs start_date_str = (Raised e, [])
  <-> docs <> [] /\ exists msg, strptime_ymd start_date_str = inl msg /\ e = ValueError msg.
Proof.
  unfold filter_documents_by_date. case_bool_decide as Hd.
  - split; [done|]. by intros [? _].
  - destruct (strptime_ymd start_date_str) as [msg|cutoff]; split.
    + intros [= <-]. eauto.
    + by intros [_ (msg' & [= <-] & ->)].
    + done.
    + by intros [_ (msg' & ? & _)].
Qed.

Lemma list_filter_idemp {A} (f : A -> bool) (l : list A) :
  List.filter f (List.filter f l) = List.filter f l.
Proof.
  induction l as [|x l IH]; [done|]. simpl.
  destruct (f x) eqn:E; [|done]. simpl. by rewrite E, IH.
Qed.

(** X2. Filtering is idempotent: filtering the returned list again with the
    same cutoff returns it unchanged. *)
Theorem filter_is_idempotent (docs out : list Document) (start_date_str : string) :
  fst (filter_documents_by_date docs start_date_str) = Ok out ->
  fst (filter_documents_by_date out start_date_str) = Ok out.
Proof.
  unfold filter_documents_by_date at 1. case_bool_decide as Hd.
  - intros [= <-]. done.
  - destruct (strptime_ymd start_date_str) as [msg|cutoff] eqn:Hc; [done|].
    simpl. rewrite filter_loop_docs. simpl. intros [= <-].
    rewrite (filter_documents_by_date_Ok _ _ cutoff Hc).
    by rewrite list_filter_idemp.
Qed.

(** X3. The filter decides document by document: filtering a concatenation
    gives the concatenation of the filtered parts. *)
Theorem filter_distributes_over_append (docs1 docs2 : list Document)
    (start_date_str : string) (cutoff : date) :
  strptime_ymd start_date_str = inr cutoff ->
  exists out1 out2,
    fst (filter_documents_by_date docs1 start_date_str) = Ok out1 /\
    fst (filter_documents_by_date docs2 start_date_str) = Ok out2 /\
    fst (filter_documents_by_date (docs1 ++ docs2) start_date_str) = Ok (out1 ++ out2).
Proof.
  intros Hc. do 2 eexists.
  rewrite !(filter_documents_by_date_Ok _ _ cutoff Hc).
  split; [done|]. split; [done|]. by rewrite List.filter_app.
Qed.

Lemma filter_step_counts (start_date : datetime) (st : filter_loop) (doc : Document) :
  news_count (filter_step start_date st doc)
  = news_count st + (if has_source "newsapi" doc then 1 else 0) /\
  news_kept_count (filter_step start_date st doc)
  = news_kept_count st
    + (if has_source "newsapi" doc && keeps start_date doc then 1 else 0) /\
  exists ws, logged (filter_step start_date st doc) = logged st ++ ws /\
             Forall (fun ev => exists msg, ev = Log WARNING msg) ws.
Proof.
  unfold filter_step, keeps, has_source, warn.
  case_bool_decide; simpl.
  - destruct (metadata doc !! "publish_date") as [s|]; simpl.
    + destruct (truthy s); simpl.
      * destruct (parse_publish_date s) as [msg|dt]; simpl.
        -- repeat split; try lia. eexists. split; [done|]. repeat constructor. eauto.
        -- destruct (datetime_ge dt start_date); simpl;
             (repeat split; try lia; exists []; by rewrite app_nil_r).
      * repeat split; try lia. eexists. split; [done|]. repeat constructor. eauto.
    + repeat split; try lia. eexists. split; [done|]. repeat constructor. eauto.
  - repeat split; try lia. exists []. by rewrite app_nil_r.
Qed.

Lemma filter_loop_counts (start_date : datetime) (docs : list Document)
    (st : filter_loop) :
  let st' := foldl (filter_step start_date) st docs in
  news_count st'
  = news_count st + length (List.filter (has_source "newsapi") docs) /\
  news_kept_count st'
  = news_kept_count st
    + length (List.filter (has_source "newsapi")
                (List.filter (keeps start_date) docs)) /\
  exists ws, logged st' = logged st ++ ws /\
             Forall (fun ev => exists msg, ev = Log WARNING msg) ws.
Proof.
  revert st. induction docs as [|doc docs IH]; intros st; simpl.
  { repeat split; try lia. exists []. by rewrite app_nil_r. }
  destruct (IH (filter_step start_date st doc)) as (Hn & Hk & ws & Hl & Hw).
  destruct (filter_step_counts start_date st doc) as (Hn1 & Hk1 & ws1 & Hl1 & Hw1).
  rewrite Hn, Hk, Hl, Hn1, Hk1, Hl1. split; [|split].
  - destruct (has_source "newsapi" doc); simpl; lia.
  - destruct (keeps start_date doc); simpl.
    + destruct (has_source "newsapi" doc); simpl; lia.
    + rewrite andb_false_r. lia.
  - exists (ws1 ++ ws). rewrite app_assoc. split; [done|]. by apply Forall_app.
Qed.

(** X4. On a non-empty input, the last record the filter logs is the INFO
    summary, and its three numbers are the number of news documents in the
    input, the number of news documents kept and the length of the returned
    list; every earlier record is a warning. *)
Theorem filter_log_reports_true_counts (docs : list Document)
    (start_date_str : string) (cutoff : date) :
  strptime_ymd start_date_str = inr cutoff ->
  docs <> [] ->
  exists out warnings,
    filter_documents_by_date docs start_date_str
    = (Ok out,
       warnings ++
       [Log INFO
          ("Date filtering applied to "
           +:+ str_nat (length (List.filter (has_source "newsapi") docs))
           +:+ " news docs >= " +:+ start_date_str
           +:+ ". Kept "
           +:+ str_nat (length (List.filter (has_source "newsapi") out))
           +:+ " news docs. Total docs after filter (incl. non-news): "
           +:+ str_nat (length out) +:+ ".")]) /\
    Forall (fun ev => exists msg, ev = Log WARNING msg) warnings.
Proof.
  intros Hc Hd. unfold filter_documents_by_date.
  rewrite bool_decide_eq_false_2 by done. rewrite Hc.
  destruct (filter_loop_counts (at_midnight cutoff) docs (FilterLoop [] 0 0 []))
    as (Hn & Hk & ws & Hl & Hw).
  simpl in Hn, Hk, Hl. unfold filter_summary.
  rewrite Hn, Hk, Hl, filter_loop_docs. simpl.
  by exists (List.filter (keeps (at_midnight cutoff)) docs), ws.
Qed.

End FilterProperties.

(** * Further properties of the orchestrator and of the store step *)

Section PipelineProperties.

Context {py_datetime : PyDatetime} {Store : Type} {chroma : VectorStore Store}.

Ltac step_monad :=
  unfold mbind, M_bind, mret, M_ret, logging, emit, lift,
    call_similarity_search, create_basic_retriever, get_date_n_days_ago,
    call_filter_documents_by_date, try_except, call_add_documents in *;
  simpl in *.

Lemma keeps_newsapi_recent (cutoff : date) (doc : Document) :
  source doc = Some "newsapi" ->
  keeps (at_midnight cutoff) doc = true -> recent_news cutoff doc.
Proof.
  intros Hsrc. unfold keeps, recent_news.
  rewrite bool_decide_eq_true_2 by done.
  destruct (metadata doc !! "publish_date") as [s|]; [|done].
  intros [_ Hp]%andb_true_iff.
  destruct (parse_publish_date s) as [msg|dt] eqn:E; [done|].
  rewrite datetime_ge_midnight in Hp.
  exists s, (dt_date dt). eauto using parse_publish_date_parses_as.
Qed.

(** X5. A context that the orchestrator returns has at most seven
    documents; each was retrieved, and is either a website document or a
    news document whose publish date parses and is on or after the cutoff
    computed from the clock. *)
Theorem context_is_bounded_and_recent (competitor_name : string) (days_back : Z)
    (w : world Store) (out : list Document) :
  fst (retrieve_and_filter_context competitor_name days_back w) = Ok out ->
  length out <= 7 /\
  exists d0 retrieved_docs,
    sub_days (clock w) days_back = Ok d0 /\
    similarity_search (vector_store w) (context_query competitor_name) 15
    = Ok retrieved_docs /\
    forall doc, doc ∈ out ->
      doc ∈ retrieved_docs /\
      (source doc = Some "website" \/
       (source doc = Some "newsapi" /\
        exists cutoff, strptime_ymd (strftime_ymd d0) = inr cutoff /\
                       recent_news cutoff doc)).
Proof.
  intros (d0 & retrieved_docs & fd & Hd & Hs & Hf & ->)%retrieve_and_filter_context_inv.
  split; [rewrite length_take; lia|].
  exists d0, retrieved_docs. split; [done|]. split; [done|].
  intros doc [Hin|Hin]%(subseteq_take 7)%elem_of_app.
  - revert Hf. unfold filter_documents_by_date.
    case_bool_decide as Hnil.
    { intros [= <-]. by apply elem_of_nil in Hin. }
    destruct (strptime_ymd (strftime_ymd d0)) as [msg|cutoff] eqn:Hc; [done|].
    simpl. rewrite filter_loop_docs. simpl. intros [= <-].
    apply elem_of_list_filter in Hin as [Hin Hk].
    apply elem_of_list_filter in Hin as [Hin Hsrc%has_source_true].
    split; [done|]. right. split; [done|].
    exists cutoff. split; [done|]. by apply keeps_newsapi_recent.
  - apply elem_of_list_filter in Hin as [Hin Hsrc%has_source_true]. auto.
Qed.




(** X8. When seven or more news documents pass the filter, the context is
    the first seven of them and holds no website document. *)
Theorem seven_news_crowd_out_web (competitor_name : string) (days_back : Z)
    (w : world Store) (d0 : datetime) (retrieved_docs fd : list Document) :
  sub_days (clock w) days_back = Ok d0 ->
  similarity_search (vector_store w) (context_query competitor_name) 15
  = Ok retrieved_docs ->
  fst (filter_documents_by_date (List.filter (has_source "newsapi") retrieved_docs)
         (strftime_ymd d0)) = Ok fd ->
  7 <= length fd ->
  fst (retrieve_and_filter_context competitor_name days_back w) = Ok (take 7 fd) /\
  forall doc, doc ∈ take 7 fd -> source doc = Some "newsapi".
Proof.
  intros Hd Hs Hf Hlen. split.
  - rewrite (retrieve_and_filter_context_Ok _ _ _ d0 retrieved_docs fd) by done.
    by rewrite take_app_le.
  - intros doc Hin%(subseteq_take 7).
    apply filter_documents_by_date_inv in Hf as [f ->].
    apply elem_of_list_filter in Hin as [Hin _].
    apply elem_of_list_filter in Hin as [_ Hsrc]. by apply has_source_true.
Qed.

(** X9. [process_and_store_documents] never raises, whatever the store
    does; it calls [add_documents] at most once, and only with the non-empty
    list of the chunks of a non-empty input. *)
Theorem store_step_never_raises (docs : list Document) (w : world Store) :
  exists st' evs,
    process_and_store_documents docs w
    = (Ok tt, World st' (clock w) (trace w ++ evs)) /\
    (forall chunks, AddDocuments chunks ∈ evs ->
       chunks = @split_documents (RecursiveCharacterTextSplitter 1000 200) docs /\
       chunks <> [] /\ docs <> []) /\
    length (List.filter (fun ev => match ev with AddDocuments _ => true | _ => false end)
              evs) <= 1.
Proof.
  unfold process_and_store_documents.
  case_bool_decide as Hd.
  { do 2 eexists. split; [done|]. split; [|simpl; lia].
    intros chunks [?|Hin%elem_of_nil]%elem_of_cons; done. }
  case_bool_decide as Hs.
  { do 2 eexists. split; [done|]. split; [|simpl; lia].
    intros chunks [?|Hin%elem_of_nil]%elem_of_cons; done. }
  step_monad.
  destruct (add_documents _ _) as [[e|] st']; simpl.
  - do 2 eexists. rewrite <- !app_assoc. split; [done|]. split; [|simpl; lia].
    simpl. intros chunks. rewrite !elem_of_cons, elem_of_nil.
    intros [?|[[= ->]|[?|[]]]]; [done| |done].
    split; [done|]. split; [exact Hs|exact Hd].
  - do 2 eexists. rewrite <- !app_assoc. split; [done|]. split; [|simpl; lia].
    simpl. intros chunks. rewrite !elem_of_cons, elem_of_nil.
    intros [?|[[= ->]|[?|[]]]]; [done| |done].
    split; [done|]. split; [exact Hs|exact Hd].
Qed.

(** X10. When [add_documents] succeeds on the chunks,
    [process_and_store_documents] leaves the store that the call produced and
    logs the number of chunks before the call and the success after it. *)
Theorem store_step_success (docs : list Document) (w : world Store) (st' : Store) :
  let split_docs := @split_documents (RecursiveCharacterTextSplitter 1000 200) docs in
  split_docs <> [] ->
  add_documents (vector_store w) split_docs = (None, st') ->
  process_and_store_documents docs w
  = (Ok tt,
     World st' (clock w)
       (trace w ++
        [Log INFO ("Adding " +:+ str_nat (length split_docs)
                   +:+ " chunks to the vector store...");
         AddDocuments split_docs;
         Log INFO "Successfully added documents to vector store."])).
Proof.
  intros split_docs Hne Hadd. unfold process_and_store_documents.
  case_bool_decide as Hd; [by subst|].
  fold split_docs. rewrite bool_decide_eq_false_2 by done.
  step_monad. rewrite Hadd. simpl. by rewrite <- !app_assoc.
Qed.

End PipelineProperties.

(** * Properties of utils.py *)

Lemma no_space_runs_collapse (s : string) (in_run : bool) :
  rstrip (collapse_whitespace_go in_run s) = ""
  \/ no_space_runs in_run (rstrip (collapse_whitespace_go in_run s)) = true.
Proof.
  revert in_run. induction s as [|c s IH]; intros in_run; [by left|].
  cbn [collapse_whitespace_go].
  destruct (isspace c) eqn:Hc.
  - destruct in_run.
    + apply IH.
    + cbn [rstrip]. destruct (IH true) as [->|Hr].
      * left. reflexivity.
      * right. destruct (rstrip _) as [|x r] eqn:Er; [done|].
        cbn [no_space_runs]. change (isspace " ") with true. cbv iota.
        simpl. exact Hr.
  - cbn [rstrip]. right. destruct (IH false) as [->|Hr].
    + rewrite Hc. cbn [no_space_runs]. by rewrite Hc.
    + destruct (rstrip _) as [|x r] eqn:Er.
      * rewrite Hc. cbn [no_space_runs]. by rewrite Hc.
      * cbn [no_space_runs]. by rewrite Hc.
Qed.

Lemma no_space_runs_lstrip (s : string) (b : bool) :
  no_space_runs b s = true ->
  lstrip s = "" \/ no_space_runs true (lstrip s) = true.
Proof.
  revert b. induction s as [|c s IH]; intros b; [by left|].
  cbn [no_space_runs lstrip]. destruct (isspace c) eqn:Hc.
  - intros [[_ _]%andb_true_iff Hs]%andb_true_iff. by apply IH in Hs.
  - intros Hs. right. cbn [no_space_runs]. by rewrite Hc.
Qed.

(** X11. The text [clean_text] returns is whitespace-normal: its only
    whitespace characters are single spaces, each between two other
    characters. *)
Theorem clean_text_is_whitespace_normal (text : string) :
  whitespace_normal (clean_text text) = true.
Proof.
  unfold clean_text. destruct (truthy text); [|done]. simpl negb. cbv iota.
  unfold strip, collapse_whitespace.
  destruct (no_space_runs_collapse (remove_truncation text) false) as [->|Hr]; [done|].
  apply no_space_runs_lstrip in Hr as [->|Hl]; [done|].
  unfold whitespace_normal. by destruct (lstrip _).
Qed.

Lemma match_truncation_needs_bracket (c : ascii) (s : string) :
  c <> "["%char -> match_truncation (String c s) = None.
Proof.
  intros Hc. unfold match_truncation. cbn [String.prefix].
  destruct (ascii_dec "[" c) as [Heq|_]; [by subst|done].
Qed.

Lemma remove_truncation_no_bracket (s : string) :
  contains_char "[" s = false -> remove_truncation_go 0 s = s.
Proof.
  induction s as [|c s IH]; [done|].
  cbn [contains_char remove_truncation_go].
  destruct (Ascii.eqb_spec c "[") as [->|Hc]; [done|].
  intros Hs. rewrite match_truncation_needs_bracket by done.
  by rewrite IH.
Qed.

Lemma collapse_no_space_runs (s : string) (b : bool) :
  no_space_runs b s = true -> collapse_whitespace_go b s = s.
Proof.
  revert b. induction s as [|c s IH]; intros b; [done|].
  cbn [no_space_runs collapse_whitespace_go]. destruct (isspace c).
  - intros [[Hc Hb]%andb_true_iff Hs]%andb_true_iff.
    apply Ascii.eqb_eq in Hc as ->. destruct b; [done|]. by rewrite IH.
  - intros Hs. by rewrite IH.
Qed.

Lemma rstrip_no_space_runs (s : string) (b : bool) :
  no_space_runs b s = true -> rstrip s = s.
Proof.
  revert b. induction s as [|c s IH]; intros b; [done|].
  cbn [no_space_runs rstrip]. destruct (isspace c) eqn:Hc.
  - intros [_ Hs]%andb_true_iff. rewrite (IH true Hs).
    destruct s; [done|]. done.
  - intros Hs. rewrite (IH false Hs). by destruct s.
Qed.

Lemma lstrip_no_space_runs (s : string) :
  no_space_runs true s = true -> lstrip s = s.
Proof.
  destruct s as [|c s]; [done|].
  cbn [no_space_runs lstrip]. destruct (isspace c); [|done].
  by rewrite andb_false_r.
Qed.

(** X12. [clean_text] changes nothing in a text that is whitespace-normal
    and has no opening bracket. *)
Theorem clean_text_fixes_clean_text (text : string) :
  whitespace_normal text = true ->
  contains_char "[" text = false ->
  clean_text text = text.
Proof.
  intros Hn Hb. unfold clean_text.
  destruct text as [|c text]; [done|].
  change (negb (truthy (String c text))) with false. cbv iota.
  unfold whitespace_normal in Hn.
  unfold remove_truncation, collapse_whitespace, strip.
  rewrite remove_truncation_no_bracket by done.
  assert (no_space_runs false (String c text) = true) as Hf.
  { revert Hn. cbn [no_space_runs]. destruct (isspace c); [|done].
    by rewrite andb_false_r. }
  rewrite (collapse_no_space_runs _ false Hf).
  rewrite (rstrip_no_space_runs _ true Hn).
  by apply lstrip_no_space_runs.
Qed.

(** * format_docs_for_llm *)

Lemma substring_of_refl (a : string) : substring_of a a.
Proof. exists "", "". by rewrite string_app_nil_r. Qed.

Lemma substring_of_app_r (a b p : string) :
  substring_of a b -> substring_of a (p +:+ b).
Proof.
  intros (p' & q & ->). exists (p +:+ p'), q. by rewrite string_app_assoc.
Qed.

Lemma substring_of_app_l (a b q : string) :
  substring_of a b -> substring_of a (b +:+ q).
Proof.
  intros (p & q' & ->). exists p, (q' +:+ q). by rewrite !string_app_assoc.
Qed.

Lemma substring_of_trans (a b c : string) :
  substring_of a b -> substring_of b c -> substring_of a c.
Proof.
  intros Hab (p & q & ->). by apply substring_of_app_r, substring_of_app_l.
Qed.

Lemma substring_of_concat (sep x : string) (l : list string) :
  x ∈ l -> substring_of x (String.concat sep l).
Proof.
  induction l as [|y l IH]; [by intros ?%elem_of_nil|].
  intros [->|Hin]%elem_of_cons.
  - destruct l; [apply substring_of_refl|].
    rewrite concat_cons_nonempty by done. apply substring_of_app_l, substring_of_refl.
  - destruct l as [|z l]; [by apply elem_of_nil in Hin|].
    rewrite concat_cons_nonempty by done.
    by apply substring_of_app_r, substring_of_app_r, IH.
Qed.

Lemma format_block_content (i : nat) (doc : Document) :
  substring_of (page_content doc) (format_block i doc).
Proof.
  unfold format_block.
  do 6 apply substring_of_app_r. apply substring_of_app_l, substring_of_refl.
Qed.

(** X13. The text of every document is in the formatted context, whole. *)
Theorem formatted_context_contains_every_document (docs : list Document)
    (doc : Document) :
  doc ∈ docs ->
  substring_of (page_content doc) (format_docs_for_llm docs).
Proof.
  intros [i Hi]%list_elem_of_lookup.
  apply substring_of_trans with (format_block i doc);
    [apply format_block_content|].
  apply substring_of_concat, list_elem_of_lookup.
  exists i. by rewrite list_lookup_imap, Hi.
Qed.

(** X14. The formatted context is the empty string only for no document. *)
Theorem formatted_context_empty_iff (docs : list Document) :
  format_docs_for_llm docs = "" <-> docs = [].
Proof.
  split; [|by intros ->].
  destruct docs as [|doc docs]; [done|].
  unfold format_docs_for_llm. rewrite imap_cons.
  destruct (imap _ docs) as [|b bs].
  - simpl String.concat. unfold format_block. discriminate.
  - rewrite concat_cons_nonempty by done. unfold format_block. discriminate.
Qed.

Section AgentProperties.

Context {py_datetime : PyDatetime} {Store : Type} {chroma : VectorStore Store}.

Ltac step_agent :=
  unfold mbind, M_bind, mret, M_ret, logging, emit, lift,
    get_date_n_days_ago, try_except in *;
  simpl in *.

(** X15. [summarize_information] always returns an answer and never raises;
    it only logs.  Without a model the answer is the initialisation error;
    with no context document it is the fixed message that names the
    competitor, nothing is logged and the model is not consulted; otherwise
    it is the model's answer, or the text of the exception the call
    raised. *)
Theorem summary_is_always_returned (llm : option ChatModel)
    (context_docs : list Document) (competitor_name : string) (w : world Store) :
  exists answer evs,
    summarize_information llm context_docs competitor_name w
    = (Ok answer, World (vector_store w) (clock w) (trace w ++ evs)) /\
    Forall (fun ev => exists lvl msg, ev = Log lvl msg) evs /\
    (llm = None -> answer = "Error: LLM not initialized.") /\
    (llm <> None -> context_docs = [] ->
       evs = [] /\
       answer = "No relevant news or website content found for " +:+ competitor_name
                +:+ " in the specified timeframe to summarize.") /\
    (forall chat, llm = Some chat -> context_docs <> [] ->
       match @chain_invoke chat
               (summary_prompt competitor_name (format_docs_for_llm context_docs)) with
       | Ok summary => answer = summary
       | Raised e => answer = "Error generating summary: " +:+ exn_msg e
       end).
Proof.
  unfold summarize_information. destruct llm as [chat|].
  2:{ exists "Error: LLM not initialized.", []. rewrite app_nil_r.
      split; [by destruct w|]. split; [constructor|]. by repeat split. }
  case_bool_decide as Hd.
  { eexists _, []. rewrite app_nil_r.
    split; [by destruct w|]. split; [constructor|]. by repeat split. }
  step_agent.
  destruct (chain_invoke _) as [summary|e] eqn:Hchain; simpl.
  - exists summary. eexists. rewrite <- !app_assoc. split; [done|].
    split; [repeat constructor; eauto|]. repeat split; try done.
    intros chat' [= <-] _. by rewrite Hchain.
  - eexists _, _. rewrite <- !app_assoc. split; [done|].
    split; [repeat constructor; eauto|]. repeat split; try done.
    intros chat' [= <-] _. by rewrite Hchain.
Qed.

(** X16. The prompt built for the model contains the competitor name and
    the text of every context document. *)
Theorem prompt_carries_competitor_and_context (competitor_name : string)
    (context_docs : list Document) (doc : Document) :
  doc ∈ context_docs ->
  let prompt := summary_prompt competitor_name (format_docs_for_llm context_docs) in
  substring_of competitor_name prompt /\
  substring_of (page_content doc) prompt.
Proof.
  intros Hin prompt. unfold prompt, summary_prompt. split.
  - do 11 apply substring_of_app_r. apply substring_of_app_l, substring_of_refl.
  - do 16 apply substring_of_app_r. apply substring_of_app_l.
    by apply formatted_context_contains_every_document.
Qed.

(** X17. [scrape_website_data] returns no document, for every URL and
    whatever the loader returns: after a successful load, [datetime.now()]
    raises [NameError] (agent.py does not import [datetime]) and the handler
    returns the empty list.  For a non-empty URL the last record logged is
    the error. *)
Theorem scraping_never_returns_a_document `{WebLoader} (url : string)
    (w : world Store) :
  exists evs,
    scrape_website_data url w
    = (Ok [], World (vector_store w) (clock w) (trace w ++ evs)) /\
    Forall (fun ev => exists lvl msg, ev = Log lvl msg) evs /\
    (url <> "" ->
     exists msg,
       last evs = Some (Log ERROR ("Error scraping website " +:+ url +:+ ": " +:+ msg))).
Proof.
  unfold scrape_website_data.
  destruct (truthy url) eqn:Hurl; simpl negb; cbv iota.
  2:{ exists []. rewrite app_nil_r. split; [by destruct w|]. split; [constructor|].
      intros Hne. by apply truthy_nonempty in Hne; congruence. }
  step_agent.
  destruct (load url) as [web_docs|e]; simpl.
  - eexists. rewrite <- !app_assoc. split; [done|].
    split; [repeat constructor; eauto|]. intros _. by eexists.
  - eexists. rewrite <- !app_assoc. split; [done|].
    split; [repeat constructor; eauto|]. intros _. by eexists.
Qed.

Lemma omap_length_le {A B} (f : A -> option B) (l : list A) :
  length (omap f l) <= length l.
Proof.
  induction l as [|x l IH]; [done|].
  change (omap f (x :: l)) with (match f x with Some y => y :: omap f l | None => omap f l end).
  destruct (f x); simpl; lia.
Qed.

Lemma article_document_well_formed (competitor_name : string) (a : article)
    (doc : Document) :
  article_document competitor_name a = Some doc ->
  source doc = Some "newsapi" /\
  metadata doc !! "competitor" = Some competitor_name /\
  is_Some (metadata doc !! "publish_date") /\
  page_content doc <> "" /\
  whitespace_normal (page_content doc) = true.
Proof.
  unfold article_document.
  destruct (truthy (clean_text _)) eqn:Ht; [|done]. simpl.
  intros [= <-]. unfold source. simpl.
  split; [by simplify_map_eq|]. split; [by simplify_map_eq|].
  split; [by simplify_map_eq|]. split.
  - by apply truthy_nonempty.
  - apply clean_text_is_whitespace_normal.
Qed.

(** X18. Every document that [collect_news_data] returns has source
    "newsapi", the competitor name it was asked for, a [publish_date] entry,
    and a non-empty, whitespace-normal text. *)
Theorem collected_news_is_well_formed (newsapi : option NewsClient)
    (competitor_name : string) (days_back : Z) (w : world Store)
    (docs : list Document) :
  fst (collect_news_data newsapi competitor_name days_back w) = Ok docs ->
  forall doc, doc ∈ docs ->
    source doc = Some "newsapi" /\
    metadata doc !! "competitor" = Some competitor_name /\
    is_Some (metadata doc !! "publish_date") /\
    page_content doc <> "" /\
    whitespace_normal (page_content doc) = true.
Proof.
  unfold collect_news_data. destruct newsapi as [client|].
  2:{ step_agent. intros [= <-] doc Hin. by apply elem_of_nil in Hin. }
  destruct (truthy competitor_name); simpl negb; cbv iota.
  2:{ step_agent. intros [= <-] doc Hin. by apply elem_of_nil in Hin. }
  step_agent.
  destruct (sub_days (clock w) days_back) as [d0|e]; simpl; [|done].
  destruct (get_everything _ _) as [r|e]; simpl.
  2:{ intros [= <-] doc Hin. by apply elem_of_nil in Hin. }
  destruct (String.eqb (status r) "ok"); simpl.
  - intros [= <-] doc (a & _ & Ha)%list_elem_of_omap.
    by apply article_document_well_formed in Ha.
  - intros [= <-] doc Hin. by apply elem_of_nil in Hin.
Qed.

(** X19. When the date arithmetic succeeds, [collect_news_data] returns
    normally and only logs: with no client, an empty name, an exception of
    the API or a status other than "ok" it returns no document; otherwise
    one document per article with non-empty cleaned text, in order. *)
Theorem collection_absorbs_api_failures (newsapi : option NewsClient)
    (competitor_name : string) (days_back : Z) (w : world Store) (d0 : datetime) :
  sub_days (clock w) days_back = Ok d0 ->
  exists docs evs,
    collect_news_data newsapi competitor_name days_back w
    = (Ok docs, World (vector_store w) (clock w) (trace w ++ evs)) /\
    Forall (fun ev => exists lvl msg, ev = Log lvl msg) evs /\
    (newsapi = None \/ competitor_name = "" -> docs = []) /\
    (forall client, newsapi = Some client -> competitor_name <> "" ->
       match @get_everything client competitor_name (strftime_ymd d0) with
       | Raised e => docs = []
       | Ok r =>
           if String.eqb (status r) "ok"
           then docs = omap (article_document competitor_name) (articles r)
                /\ length docs <= length (articles r)
           else docs = []
       end).
Proof.
  intros Hd. unfold collect_news_data. destruct newsapi as [client|].
  2:{ step_agent. eexists _, _. split; [done|].
      split; [repeat constructor; eauto|]. by split. }
  destruct (truthy competitor_name) eqn:Hname; simpl negb; cbv iota.
  2:{ step_agent. eexists _, _. split; [done|].
      split; [repeat constructor; eauto|]. split; [done|].
      intros client' _ Hne. apply truthy_nonempty in Hne. congruence. }
  apply truthy_nonempty in Hname.
  step_agent. rewrite Hd. simpl.
  destruct (get_everything _ _) as [r|e] eqn:Hget; simpl.
  2:{ eexists _, _. rewrite <- !app_assoc. split; [done|].
      split; [repeat constructor; eauto|]. split; [by intros [?|?]|].
      intros client' [= <-] _. by rewrite Hget. }
  destruct (String.eqb (status r) "ok") eqn:Hok; simpl.
  - eexists _, _. rewrite <- !app_assoc. split; [done|].
    split; [repeat constructor; eauto|]. split; [by intros [?|?]|].
    intros client' [= <-] _. rewrite Hget, Hok. split; [done|].
    apply omap_length_le.
  - eexists _, _. rewrite <- !app_assoc. split; [done|].
    split; [repeat constructor; eauto|]. split; [by intros [?|?]|].
    intros client' [= <-] _. by rewrite Hget, Hok.
Qed.

End AgentProperties.

(** * The size of the chunks *)

Lemma lstrip_length (s : string) : String.length (lstrip s) <= String.length s.
Proof.
  induction s as [|c s IH]; [done|].
  cbn [lstrip]. destruct (isspace c); simpl; lia.
Qed.

Lemma rstrip_length (s : string) : String.length (rstrip s) <= String.length s.
Proof.
  induction s as [|c s IH]; [done|].
  cbn [rstrip]. destruct (rstrip s); [destruct (isspace c)|]; simpl in *; lia.
Qed.

Lemma strip_length (s : string) : String.length (strip s) <= String.length s.
Proof.
  unfold strip. etrans; [apply lstrip_length|apply rstrip_length].
Qed.

Lemma join_docs_bound (docs : list string) (separator text : string) :
  _join_docs docs separator = Some text ->
  text <> "" /\ String.length text <= String.length (String.concat separator docs).
Proof.
  unfold _join_docs. destruct (String.eqb_spec (strip (String.concat separator docs)) "");
    [done|].
  intros [= <-]. split; [done|apply strip_length].
Qed.

Section ChunkSize.

Variables (chunk_size chunk_overlap : nat).

Lemma pop_front_fits (_len total : nat) (current_doc : list string) :
  total = String.length (String.concat "" current_doc) ->
  let r := pop_front chunk_size chunk_overlap 0 _len total current_doc in
  fst r = String.length (String.concat "" (snd r)) /\
  (fst r + _len <= chunk_size \/ fst r = 0).
Proof.
  revert total. induction current_doc as [|d0 rest IH]; intros total Ht.
  { simpl. split; [done|]. right. by subst. }
  cbn [pop_front].
  destruct (chunk_overlap <? total) eqn:E1; simpl orb.
  - apply IH. subst total. rewrite concat_empty_cons, string_length_app.
    destruct (1 <? _); lia.
  - destruct (chunk_size <? total + _len + 0) eqn:E2; simpl andb.
    + destruct (0 <? total) eqn:E3.
      * apply IH. subst total. rewrite concat_empty_cons, string_length_app.
        destruct (1 <? _); lia.
      * simpl. split; [done|]. right. apply Nat.ltb_ge in E3. lia.
    + simpl. split; [done|]. left. apply Nat.ltb_ge in E2. lia.
Qed.

Lemma merge_step_sized (docs current_doc : list string) (total : nat) (d : string) :
  String.length d <= chunk_size ->
  total = String.length (String.concat "" current_doc) ->
  total <= chunk_size ->
  Forall (sized chunk_size) docs ->
  let '(docs', current_doc', total') :=
    merge_step chunk_size chunk_overlap "" (docs, current_doc, total) d in
  total' = String.length (String.concat "" current_doc') /\
  total' <= chunk_size /\
  Forall (sized chunk_size) docs'.
Proof.
  intros Hd Ht Hle Hdocs. unfold merge_step. simpl String.length.
  assert (forall t c, t = String.length (String.concat "" c) ->
            t + String.length d + (if 1 <? length (c ++ [d]) then 0 else 0)
            = String.length (String.concat "" (c ++ [d]))) as Hsnoc.
  { intros t c ->. rewrite concat_empty_app, string_length_app.
    simpl. destruct (1 <? _); lia. }
  destruct (chunk_size <? _) eqn:E1.
  - destruct (0 <? length current_doc) eqn:E2.
    + destruct (pop_front_fits (String.length d) total current_doc Ht) as [Hp1 Hp2].
      destruct (pop_front _ _ _ _ _ _) as [total1 current_doc1]. simpl in Hp1, Hp2.
      split; [by apply Hsnoc|]. split.
      * destruct (1 <? _); lia.
      * apply Forall_app. split; [done|].
        destruct (_join_docs current_doc "") as [text|] eqn:Hj; [|constructor].
        apply join_docs_bound in Hj as [Hne Hlen].
        repeat constructor; [done|lia].
    + split; [by apply Hsnoc|]. split; [|done].
      apply Nat.ltb_ge in E2. destruct current_doc; [|simpl in E2; lia].
      subst total. simpl. lia.
  - split; [by apply Hsnoc|]. split; [|done].
    apply Nat.ltb_ge in E1. destruct (0 <? _); destruct (1 <? _); lia.
Qed.

Lemma merge_loop_sized (splits : list string) :
  Forall (fun s => String.length s <= chunk_size) splits ->
  forall (docs current_doc : list string) (total : nat),
    total = String.length (String.concat "" current_doc) ->
    total <= chunk_size ->
    Forall (sized chunk_size) docs ->
    let '(docs', current_doc', total') :=
      foldl (merge_step chunk_size chunk_overlap "") (docs, current_doc, total) splits in
    total' = String.length (String.concat "" current_doc') /\
    total' <= chunk_size /\
    Forall (sized chunk_size) docs'.
Proof.
  induction splits as [|d splits IH]; intros Hs docs current_doc total Ht Hle Hdocs.
  { done. }
  apply Forall_cons in Hs as [Hd Hs]. cbn [foldl].
  pose proof (merge_step_sized docs current_doc total d Hd Ht Hle Hdocs) as Hstep.
  destruct (merge_step _ _ _ _ _) as [[docs1 current_doc1] total1].
  destruct Hstep as (Ht1 & Hle1 & Hdocs1). by apply IH.
Qed.

Lemma merge_splits_sized (splits : list string) :
  Forall (fun s => String.length s <= chunk_size) splits ->
  Forall (sized chunk_size) (_merge_splits chunk_size chunk_overlap splits "").
Proof.
  intros Hs. unfold _merge_splits.
  pose proof (merge_loop_sized splits Hs [] [] 0 eq_refl (Nat.le_0_l _)
                (Forall_nil_2 _)) as Hloop.
  destruct (foldl _ _ _) as [[docs current_doc] total].
  destruct Hloop as (Ht & Hle & Hdocs).
  apply Forall_app. split; [done|].
  destruct (_join_docs current_doc "") as [text|] eqn:Hj; [|constructor].
  apply join_docs_bound in Hj as [Hne Hlen].
  repeat constructor; [done|lia].
Qed.

Lemma split_loop_sized (recurse : option (string -> list string))
    (splits : list string) :
  match recurse with
  | Some f => forall s, Forall (sized chunk_size) (f s)
  | None => Forall (fun s => String.length s < chunk_size) splits
  end ->
  forall final_chunks good,
    Forall (sized chunk_size) final_chunks ->
    Forall (fun s => String.length s <= chunk_size) good ->
    let '(final_chunks', good') :=
      foldl (split_step chunk_size chunk_overlap recurse) (final_chunks, good) splits in
    Forall (sized chunk_size) final_chunks' /\
    Forall (fun s => String.length s <= chunk_size) good'.
Proof.
  induction splits as [|s splits IH]; intros Hrec final_chunks good Hf Hg.
  { done. }
  cbn [foldl]. unfold split_step at 2.
  assert (match recurse with
          | Some f => forall s, Forall (sized chunk_size) (f s)
          | None => Forall (fun s => String.length s < chunk_size) splits
          end) as Hrec' by (destruct recurse; [done|by inversion Hrec]).
  destruct (String.length s <? chunk_size) eqn:Hlen.
  - apply IH; [done|done|].
    apply Forall_app. split; [done|]. repeat constructor.
    apply Nat.ltb_lt in Hlen. lia.
  - assert (Forall (sized chunk_size)
              match good with
              | [] => final_chunks
              | _ :: _ => final_chunks ++ _merge_splits chunk_size chunk_overlap good ""
              end) as Hflush.
    { destruct good; [done|]. apply Forall_app. split; [done|].
      by apply merge_splits_sized. }
    destruct recurse as [f|].
    + apply IH; [done| |constructor]. apply Forall_app. split; [done|apply Hrec].
    + apply Forall_cons in Hrec as [Hs _]. apply Nat.ltb_ge in Hlen. lia.
Qed.

Lemma split_with_sized (recurse : option (string -> list string))
    (separator text : string) :
  1 < chunk_size ->
  match recurse with
  | Some f => forall s, Forall (sized chunk_size) (f s)
  | None => separator = ""
  end ->
  Forall (sized chunk_size) (split_with chunk_size chunk_overlap recurse separator text).
Proof.
  intros Hsize Hrec. unfold split_with.
  pose proof (split_loop_sized recurse (_split_text_with_regex text separator)) as Hloop.
  destruct (foldl _ _ _) as [final_chunks good] eqn:Hfold.
  specialize (Hloop
    ltac:(destruct recurse; [done|]; subst separator;
          apply Forall_forall; intros x Hx;
          by rewrite (split_chars_length text x)) [] [] (Forall_nil_2 _) (Forall_nil_2 _)).
  rewrite Hfold in Hloop. destruct Hloop as [Hf Hg].
  destruct good; [done|]. apply Forall_app. split; [done|].
  by apply merge_splits_sized.
Qed.

Lemma split_text_sized (last : string) (separators : list string) :
  1 < chunk_size ->
  (exists l, separators = l ++ [""]) ->
  forall text,
    Forall (sized chunk_size) (_split_text chunk_size chunk_overlap last separators text).
Proof.
  intros Hsize.
  induction separators as [|_s rest IH]; intros [l Hl] text.
  - by destruct l.
  - assert (_s <> "" -> exists l', rest = l' ++ [""]) as Hrest.
    { intros Hs. destruct l as [|x l]; simplify_eq/=; eauto. }
    cbn [_split_text].
    destruct (String.eqb_spec _s "") as [->|Hs].
    + by apply split_with_sized.
    + specialize (IH (Hrest Hs)).
      destruct (is_infix _s text); [|by apply IH].
      apply split_with_sized; [done|].
      destruct rest; [|done].
      destruct (Hrest Hs) as [l' Hl']. by destruct l'.
Qed.

End ChunkSize.

(** X20. Every chunk that [process_and_store_documents] hands to the store
    is non-empty and has at most 1000 characters. *)
Theorem chunks_are_nonempty_and_at_most_1000 (docs : list Document) (chunk : Document) :
  chunk ∈ @split_documents (RecursiveCharacterTextSplitter 1000 200) docs ->
  page_content chunk <> "" /\ String.length (page_content chunk) <= 1000.
Proof.
  rewrite split_documents_flat_map, list_elem_of_In, in_flat_map.
  intros (d & _ & Hin). apply list_elem_of_In, list_elem_of_fmap in Hin as (c & -> & Hc).
  simpl. revert c Hc. apply Forall_forall.
  apply (split_text_sized 1000 200 (List.last default_separators "")
           default_separators ltac:(lia)).
  by exists [nl +:+ nl; nl; " "].
Qed.

(** * The further properties on concrete runs *)

Lemma filter_is_idempotent_witness :
  let out := [Sample.news "2024-06-01" "Acme ships a new product";
              Sample.web "Acme home page";
              Sample.news "2024-05-25T08:30:00Z" "Acme partners with Initech";
              Sample.blog "A post about Acme";
              Sample.unlabelled "Acme leaflet"] in
  fst (filter_documents_by_date (py_datetime := Ref.python_datetime)
         out "2024-05-25") = Ok out.
Proof.
  intros out.
  apply (filter_is_idempotent (py_datetime := Ref.python_datetime)
           Sample.mixed_docs out "2024-05-25").
  vm_compute. reflexivity.
Defined.

Lemma filter_distributes_over_append_witness :
  exists out1 out2,
    fst (filter_documents_by_date (py_datetime := Ref.python_datetime)
           Sample.mixed_docs "2024-05-25") = Ok out1 /\
    fst (filter_documents_by_date (py_datetime := Ref.python_datetime)
           Sample.fifteen_docs "2024-05-25") = Ok out2 /\
    fst (filter_documents_by_date (py_datetime := Ref.python_datetime)
           (Sample.mixed_docs ++ Sample.fifteen_docs) "2024-05-25")
    = Ok (out1 ++ out2).
Proof.
  apply (filter_distributes_over_append (py_datetime := Ref.python_datetime)
           Sample.mixed_docs Sample.fifteen_docs "2024-05-25" (mkDate 2024 5 25)).
  vm_compute. reflexivity.
Defined.

Lemma filter_log_reports_true_counts_witness :
  exists out warnings,
    filter_documents_by_date (py_datetime := Ref.python_datetime)
      Sample.mixed_docs "2024-05-25"
    = (Ok out,
       warnings ++
       [Log INFO
          ("Date filtering applied to "
           +:+ str_nat (length (List.filter (has_source "newsapi") Sample.mixed_docs))
           +:+ " news docs >= " +:+ "2024-05-25"
           +:+ ". Kept "
           +:+ str_nat (length (List.filter (has_source "newsapi") out))
           +:+ " news docs. Total docs after filter (incl. non-news): "
           +:+ str_nat (length out) +:+ ".")]) /\
    Forall (fun ev => exists msg, ev = Log WARNING msg) warnings.
Proof.
  apply (filter_log_reports_true_counts (py_datetime := Ref.python_datetime)
           Sample.mixed_docs "2024-05-25" (mkDate 2024 5 25)).
  - vm_compute. reflexivity.
  - discriminate.
Defined.

Lemma context_is_bounded_and_recent_witness :
  let w := Sample.world_with Sample.mixed_docs true in
  let out := [Sample.news "2024-06-01" "Acme ships a new product";
              Sample.news "2024-05-25T08:30:00Z" "Acme partners with Initech";
              Sample.web "Acme home page"] in
  length out <= 7 /\
  exists d0 retrieved_docs,
    Ref.sub_days (clock w) 7 = Ok d0 /\
    Ref.similarity_search (vector_store w) (context_query "Acme") 15
    = Ok retrieved_docs /\
    forall doc, doc ∈ out ->
      doc ∈ retrieved_docs /\
      (source doc = Some "website" \/
       (source doc = Some "newsapi" /\
        exists cutoff,
          Ref.strptime_ymd (Ref.strftime_ymd d0) = inr cutoff /\
          recent_news (py_datetime := Ref.python_datetime) cutoff doc)).
Proof.
  intros w out.
  apply (context_is_bounded_and_recent (py_datetime := Ref.python_datetime)
           (chroma := Ref.chroma) "Acme" 7 w out).
  vm_compute. reflexivity.
Defined.

Lemma seven_news_crowd_out_web_witness :
  let w := Sample.world_with Sample.fifteen_docs true in
  let fd := take 8 Sample.fifteen_docs in
  fst (retrieve_and_filter_context (py_datetime := Ref.python_datetime)
         (chroma := Ref.chroma) "Acme" 7 w) = Ok (take 7 fd) /\
  forall doc, doc ∈ take 7 fd -> source doc = Some "newsapi".
Proof.
  intros w fd.
  apply (seven_news_crowd_out_web (py_datetime := Ref.python_datetime)
           (chroma := Ref.chroma) "Acme" 7 w
           (mkDatetime (mkDate 2024 5 25) 10 0 0 0) Sample.fifteen_docs fd).
  - vm_compute. reflexivity.
  - vm_compute. reflexivity.
  - vm_compute. reflexivity.
  - vm_compute. lia.
Defined.

Lemma store_step_success_witness :
  let docs := [Sample.news "2024-06-01" "Acme ships a new product"] in
  let w := Sample.world_with Sample.mixed_docs true in
  process_and_store_documents (chroma := Ref.chroma) docs w
  = (Ok tt,
     World (Ref.mkStore (Sample.mixed_docs ++ docs) true) Sample.now
       [Log INFO ("Adding " +:+ str_nat 1 +:+ " chunks to the vector store...");
        AddDocuments docs;
        Log INFO "Successfully added documents to vector store."]).
Proof.
  intros docs w.
  apply (store_step_success (chroma := Ref.chroma) docs w
           (Ref.mkStore (Sample.mixed_docs ++ docs) true)).
  - vm_compute. discriminate.
  - vm_compute. reflexivity.
Defined.

Lemma clean_text_fixes_clean_text_witness :
  clean_text "Acme ships a new product" = "Acme ships a new product".
Proof.
  apply (clean_text_fixes_clean_text "Acme ships a new product");
    vm_compute; reflexivity.
Defined.

Lemma formatted_context_contains_every_document_witness :
  substring_of "Acme home page" (format_docs_for_llm Sample.mixed_docs).
Proof.
  apply (formatted_context_contains_every_document Sample.mixed_docs
           (Sample.web "Acme home page")).
  apply list_elem_of_In. vm_compute. right. left. reflexivity.
Defined.

Lemma prompt_carries_competitor_and_context_witness :
  let prompt := summary_prompt "Acme" (format_docs_for_llm Sample.mixed_docs) in
  substring_of "Acme" prompt /\ substring_of "Acme home page" prompt.
Proof.
  apply (prompt_carries_competitor_and_context "Acme" Sample.mixed_docs
           (Sample.web "Acme home page")).
  apply list_elem_of_In. vm_compute. right. left. reflexivity.
Defined.

Lemma collected_news_is_well_formed_witness :
  let doc :=
    mkDocument "Acme partners with Initech"
      {[ "source" := "newsapi"; "competitor" := "Acme";
         "title" := "Partnership"; "url" := "https://news.example/initech";
         "publish_date" := "N/A" ]} in
  source doc = Some "newsapi" /\
  metadata doc !! "competitor" = Some "Acme" /\
  is_Some (metadata doc !! "publish_date") /\
  page_content doc <> "" /\
  whitespace_normal (page_content doc) = true.
Proof.
  intros doc.
  apply (collected_news_is_well_formed (py_datetime := Ref.python_datetime)
           (Some Demo.news_client) "Acme" 7 (Sample.world_with [] true)
           [mkDocument "Acme ships a new product today"
              {[ "source" := "newsapi"; "competitor" := "Acme";
                 "title" := "Acme launch day"; "url" := "https://news.example/acme";
                 "publish_date" := "2024-05-30T09:00:00Z" ]};
            doc]).
  - vm_compute. reflexivity.
  - apply list_elem_of_In. right. left. reflexivity.
Defined.

Lemma collection_absorbs_api_failures_witness :
  let w := Sample.world_with [] true in
  exists docs evs,
    collect_news_data (py_datetime := Ref.python_datetime)
      (Some Demo.news_client) "Acme" 7 w
    = (Ok docs, World (vector_store w) (clock w) (trace w ++ evs)) /\
    length docs <= 3.
Proof.
  intros w.
  destruct (collection_absorbs_api_failures (py_datetime := Ref.python_datetime)
              (Some Demo.news_client) "Acme" 7 w
              (mkDatetime (mkDate 2024 5 25) 10 0 0 0))
    as (docs & evs & Hrun & _ & _ & Hok).
  - vm_compute. reflexivity.
  - exists docs, evs. split; [exact Hrun|].
    specialize (Hok Demo.news_client eq_refl). simpl in Hok.
    apply Hok. discriminate.
Defined.

Lemma chunks_are_nonempty_and_at_most_1000_witness :
  page_content (Sample.web "Acme home page") <> "" /\
  String.length (page_content (Sample.web "Acme home page")) <= 1000.
Proof.
  apply (chunks_are_nonempty_and_at_most_1000
           [Sample.web "  Acme home page "] (Sample.web "Acme home page")).
  apply list_elem_of_In. vm_compute. left. reflexivity.
Defined.
